(** * Risk scoring and crime-timeline forecasting: model and properties

    Shallow embedding of
      - [src/utils/risk_calculator.py]           (module [Utils]),
      - [src/backend/app/core/constants.py]       (module [Constants]),
      - [src/backend/app/services/risk_service.py] (module [Backend]),
    and of the code around them: the module-level functions of both files
    and [RiskService] (modules [risk_calculator], [risk_service]),
    [get_risk_category] of [src/utils/data_loader.py], the risk categories
    of [constants.py] (module [constants]) and the request schema of
    [src/backend/app/schemas/risk.py] (module [schemas]).

    Numbers.  Python [int] is [Z].  A Python [float] that only feeds
    scores and probabilities is an exact rational [Q]: the statements about
    scores hold up to a tolerance, and [sum] over floats is not even the
    same algorithm in every interpreter version.  A Python [float] that is
    handed to [int(...)] is a binary64 [float]: there the last bit of the
    product decides which integer comes out ([int(165 * 1.4)] is [230]).
    The one division of two ints keeps its [OverflowError]: a quotient
    beyond the float range is raised, not returned.

    Exceptions are values of [result]; [try ... except] is a match on the
    raised exception. *)

From Stdlib Require Import ZArith QArith Qabs Qround Qminmax.
From Stdlib Require Import String List Bool Lia Lqa.
From Stdlib Require Import Permutation Sorted.
From Stdlib Require Import PrimFloat FloatOps SpecFloat.
Import ListNotations.

Set Warnings "-inexact-float".

Local Open Scope string_scope.
Local Open Scope Z_scope.

(** ** Python runtime *)

Module Py.

Inductive exn : Type :=
| TypeError | ValueError | KeyError | ZeroDivisionError | OverflowError.

Inductive result (A : Type) : Type :=
| Ok (a : A)
| Raise (e : exn).
Arguments Ok {A} a.
Arguments Raise {A} e.

Definition bind {A B} (m : result A) (k : A -> result B) : result B :=
  match m with
  | Ok a => k a
  | Raise e => Raise e
  end.

(** [d.get(key, default)] on a key that may be absent. *)
Definition get {A} (field : option A) (default : A) : A :=
  match field with
  | Some v => v
  | None => default
  end.

(** A [dict] with string keys, in insertion order. *)
Definition dict (V : Type) : Type := list (string * V).

Fixpoint dict_get {V} (d : dict V) (k : string) : option V :=
  match d with
  | [] => None
  | (k', v) :: d' => if String.eqb k k' then Some v else dict_get d' k
  end.

(** [d[k]] *)
Definition dict_index {V} (d : dict V) (k : string) : result V :=
  match dict_get d k with
  | Some v => Ok v
  | None => Raise KeyError
  end.

(** [d[k] = v]: an existing key keeps its position, a new one goes last. *)
Fixpoint dict_set {V} (d : dict V) (k : string) (v : V) : dict V :=
  match d with
  | [] => [(k, v)]
  | (k', v') :: d' =>
      if String.eqb k k' then (k', v) :: d' else (k', v') :: dict_set d' k v
  end.

Definition dict_keys {V} (d : dict V) : list string := map fst d.
Definition dict_values {V} (d : dict V) : list V := map snd d.
Definition dict_items {V} (d : dict V) : list (string * V) := d.

(** [dict(items)] *)
Definition dict_of_items {V} (items : list (string * V)) : dict V :=
  fold_left (fun d kv => dict_set d (fst kv) (snd kv)) items [].

(** [x in xs] for a list of strings. *)
Definition str_in (x : string) (xs : list string) : bool :=
  existsb (String.eqb x) xs.

(** [sorted(xs, key=key)]: stable, ascending. *)
Fixpoint insert_by {A} (key : A -> Z) (x : A) (xs : list A) : list A :=
  match xs with
  | [] => [x]
  | y :: ys => if key y <=? key x then y :: insert_by key x ys else x :: y :: ys
  end.

Definition sorted {A} (xs : list A) (key : A -> Z) : list A :=
  fold_left (fun acc x => insert_by key x acc) xs [].

(** Comparisons and [min]/[max] on rationals.  [min(a, b)] is [b] when
    [b < a] and [a] otherwise; [max(a, b)] is [b] when [b > a]. *)
Definition Qltb (x y : Q) : bool := negb (Qle_bool y x).

Definition min (a b : Q) : Q := if Qltb b a then b else a.
Definition max (a b : Q) : Q := if Qltb a b then b else a.

(** [sum(xs)] *)
Definition sum (xs : list Q) : Q := fold_left Qplus xs 0%Q.

(** The least magnitude that rounds past the largest float
    [2^1024 - 2^971]: the midpoint between it and [2^1024], where the tie
    goes to the even neighbour [2^1024]. *)
Definition float_overflow : Q := inject_Z (2 ^ 1024 - 2 ^ 970).

(** [a / b] on two ints: [ZeroDivisionError] on a zero divisor; otherwise
    the quotient is rounded to the nearest float, and the division raises
    [OverflowError] when that is beyond the largest float. *)
Definition truediv (a b : Z) : result Q :=
  if b =? 0 then Raise ZeroDivisionError
  else
    let quotient := (inject_Z a / inject_Z b)%Q in
    if Qle_bool float_overflow (Qabs quotient) then Raise OverflowError
    else Ok quotient.

(** [float(n)], as done implicitly by [n * x] for an int [n] and a float
    [x]: nearest binary64, [OverflowError] beyond the range. *)
Definition float_of_int (n : Z) : result float :=
  match binary_normalize prec emax n 0 false with
  | S754_infinity _ => Raise OverflowError
  | sf => Ok (SF2Prim sf)
  end.

(** [try: body except (caught...): handler] *)
Definition try_except {A} (body : result A) (caught : exn -> bool)
    (handler : result A) : result A :=
  match body with
  | Ok a => Ok a
  | Raise e => if caught e then handler else Raise e
  end.

(** [int(x)] on a float: truncation toward zero. *)
Definition int_of_float (x : float) : result Z :=
  match Prim2SF x with
  | S754_nan => Raise ValueError
  | S754_infinity _ => Raise OverflowError
  | S754_zero _ => Ok 0
  | S754_finite s m e =>
      let a := if 0 <=? e then Z.pos m * 2 ^ e else Z.pos m / 2 ^ (- e) in
      Ok (if s then - a else a)
  end.

End Py.

Import Py.

Notation "x <- m ;; k" := (bind m (fun x => k))
  (at level 61, m at next level, right associativity).
Notation "' pat <- m ;; k" := (bind m (fun x => match x with pat => k end))
  (at level 61, pat pattern, m at next level, right associativity).

(** ** Records passed around as dicts *)

(** [person_data]: the keys the calculators read; [None] is an absent key. *)
Record person_data : Type := {
  pattern_type : option string;
  total_cases : option Z;
  criminal_count : option Z;
  admin_count : option Z;
  days_since_last : option Z;
  recidivism_rate : option Q;
  current_age : option Z;
  age_at_first_violation : option Z;
  has_property : option Z;
  has_job : option Z;
  has_family : option Z;
  substance_abuse : option Z;
  has_escalation : option Z;
  admin_to_criminal : option Z
}.

(** The dict built by [_calculate_single_forecast].  [date] is in
    microseconds on the clock's scale. *)
Record forecast : Type := {
  crime_type : string;
  days : Z;
  date : Z;
  probability : Q;
  ci_lower : Z;
  ci_upper : Z;
  confidence : string;
  risk_level : string
}.

(** [timedelta(days=n)] *)
Definition timedelta (n : Z) : Z := n * 86400000000.

(** ** src/utils/risk_calculator.py *)

Module Utils.

Module RiskCalculator.

Definition weights : dict Q :=
  [ ("pattern_weight", 0.25%Q);
    ("history_weight", 0.20%Q);
    ("time_weight", 0.15%Q);
    ("age_weight", 0.10%Q);
    ("social_weight", 0.15%Q);
    ("escalation_weight", 0.15%Q) ].

Definition pattern_risks : dict Q :=
  [ ("mixed_unstable", 0.8%Q);
    ("chronic_criminal", 0.9%Q);
    ("escalating", 0.85%Q);
    ("deescalating", 0.4%Q);
    ("single", 0.3%Q);
    ("unknown", 0.5%Q) ].

Definition _calculate_history_score (data : person_data) : result Q :=
  let total_cases := get (total_cases data) 0 in
  let criminal_count := get (criminal_count data) 0 in
  if total_cases =? 0 then Ok 0%Q
  else
    let base_score : Q :=
      if total_cases <=? 2 then 2%Q
      else if total_cases <=? 5 then 4%Q
      else if total_cases <=? 10 then 6%Q
      else 8%Q in
    base_score <-
      (if criminal_count >? 0 then
         criminal_ratio <- truediv criminal_count total_cases ;;
         Ok (base_score + criminal_ratio * 2)%Q
       else Ok base_score) ;;
    Ok (Py.min 10 base_score).

Definition _calculate_time_score (data : person_data) : Z :=
  let days_since_last := get (days_since_last data) 365 in
  let time_score :=
    if days_since_last <? 30 then 10
    else if days_since_last <? 90 then 8
    else if days_since_last <? 180 then 6
    else if days_since_last <? 365 then 4
    else 2 in
  let recidivism_rate := get (recidivism_rate data) 0%Q in
  if Qltb 2 recidivism_rate then Z.min 10 (time_score + 2)
  else time_score.

Definition _calculate_age_score (data : person_data) : Z :=
  let age := get (current_age data) 35 in
  let age_at_first := get (age_at_first_violation data) age in
  let base_score :=
    if (18 <=? age) && (age <=? 25) then 8
    else if (26 <=? age) && (age <=? 35) then 6
    else if (36 <=? age) && (age <=? 45) then 4
    else 2 in
  let base_score :=
    if age_at_first <? 18 then base_score + 3
    else if age_at_first <? 21 then base_score + 2
    else if age_at_first <? 25 then base_score + 1
    else base_score in
  Z.min 10 base_score.

Definition _calculate_social_score (data : person_data) : Z :=
  let score := 5 in
  let score := if get (has_property data) 0 =? 1 then score - 2 else score in
  let score := if get (has_job data) 0 =? 1 then score - 2 else score in
  let score := if get (has_family data) 0 =? 1 then score - 1 else score in
  let score := if get (has_property data) 0 =? 0 then score + 1 else score in
  let score := if get (has_job data) 0 =? 0 then score + 1 else score in
  let score := if get (substance_abuse data) 0 =? 1 then score + 2 else score in
  Z.max 0 (Z.min 10 score).

Definition _calculate_escalation_score (data : person_data) : Z :=
  let has_escalation := get (has_escalation data) 0 in
  let admin_to_criminal := get (admin_to_criminal data) 0 in
  if negb (has_escalation =? 0) then
    if admin_to_criminal >? 2 then 9
    else if admin_to_criminal >? 0 then 7
    else 5
  else
    if get (admin_count data) 0 >? 5 then 4
    else 2.

Definition calculate_risk_score (person_data : person_data)
  : result (Q * dict Q) :=
  let components : dict Q := [] in
  let pattern := get (pattern_type person_data) "unknown" in
  let pattern_score := (get (dict_get pattern_risks pattern) 0.5 * 10)%Q in
  w <- dict_index weights "pattern_weight" ;;
  let components := dict_set components "pattern" (pattern_score * w)%Q in
  history_score <- _calculate_history_score person_data ;;
  w <- dict_index weights "history_weight" ;;
  let components := dict_set components "history" (history_score * w)%Q in
  let time_score := _calculate_time_score person_data in
  w <- dict_index weights "time_weight" ;;
  let components :=
    dict_set components "time" (inject_Z time_score * w)%Q in
  let age_score := _calculate_age_score person_data in
  w <- dict_index weights "age_weight" ;;
  let components := dict_set components "age" (inject_Z age_score * w)%Q in
  let social_score := _calculate_social_score person_data in
  w <- dict_index weights "social_weight" ;;
  let components :=
    dict_set components "social" (inject_Z social_score * w)%Q in
  let escalation_score := _calculate_escalation_score person_data in
  w <- dict_index weights "escalation_weight" ;;
  let components :=
    dict_set components "escalation" (inject_Z escalation_score * w)%Q in
  let risk_score := Py.sum (dict_values components) in
  let risk_score := Py.max 0 (Py.min 10 risk_score) in
  Ok (risk_score, components).

Definition get_risk_level (risk_score : Q) : string * string :=
  if Qle_bool 7 risk_score then
    ("🔴 Критический", "Требует немедленного вмешательства")
  else if Qle_bool 5 risk_score then
    ("🟡 Высокий", "Усиленный контроль и мониторинг")
  else if Qle_bool 3 risk_score then
    ("🟠 Средний", "Стандартный контроль")
  else
    ("🟢 Низкий", "Минимальный контроль").

Definition calculate_crime_probability
    (person_data : person_data) (crime_type : string) (days_ahead : Z)
  : result Q :=
  let base_probabilities : dict Q :=
    [ ("Кража", 87.3%Q);
      ("Мошенничество", 82.3%Q);
      ("Убийство", 97.0%Q);
      ("Грабеж", 60.2%Q);
      ("Разбой", 20.2%Q);
      ("Вымогательство", 100.0%Q);
      ("Изнасилование", 65.6%Q);
      ("Хулиганство", 45.0%Q) ] in
  let base_prob := get (dict_get base_probabilities crime_type) 50.0%Q in
  '(risk_score, _) <- calculate_risk_score person_data ;;
  let risk_modifier := (risk_score / 10)%Q in
  let time_windows : dict Z :=
    [ ("Мошенничество", 109);
      ("Кража", 146);
      ("Убийство", 143);
      ("Грабеж", 148);
      ("Разбой", 150);
      ("Изнасилование", 157);
      ("Вымогательство", 144);
      ("Хулиганство", 155) ] in
  let expected_days := get (dict_get time_windows crime_type) 140 in
  let time_modifier :=
    if Qltb (inject_Z days_ahead) (inject_Z expected_days * 0.5) then 0.6%Q
    else if days_ahead <? expected_days then 0.8%Q
    else if Qltb (inject_Z days_ahead) (inject_Z expected_days * 1.5)
         then 1.0%Q
    else 0.7%Q in
  let pattern := get (pattern_type person_data) "unknown" in
  let pattern_modifier :=
    if String.eqb pattern "chronic_criminal"
       && str_in crime_type ["Кража"; "Грабеж"] then 1.3%Q
    else if String.eqb pattern "escalating"
            && str_in crime_type ["Грабеж"; "Разбой"] then 1.2%Q
    else if String.eqb pattern "mixed_unstable" then 1.1%Q
    else 1.0%Q in
  let probability :=
    (base_prob * risk_modifier * time_modifier * pattern_modifier)%Q in
  Ok (Py.max 5 (Py.min 95 probability)).

End RiskCalculator.

Module CrimeForecaster.

Definition base_windows : dict Z :=
  [ ("Мошенничество", 109);
    ("Кража", 146);
    ("Убийство", 143);
    ("Вымогательство", 144);
    ("Грабеж", 148);
    ("Разбой", 150);
    ("Изнасилование", 157);
    ("Хулиганство", 155) ].

Definition _get_age_modifier (data : person_data) : float :=
  let age := get (current_age data) 35 in
  if age <? 25 then 0.8%float
  else if age <? 35 then 0.9%float
  else if age <? 45 then 1.1%float
  else 1.3%float.

Definition _get_pattern_modifier (data : person_data)
    (crime_type : string) : float :=
  let pattern := get (pattern_type data) "unknown" in
  let modifiers : dict float :=
    [ ("mixed_unstable", 0.9%float);
      ("chronic_criminal", 0.7%float);
      ("escalating", 0.6%float);
      ("deescalating", 1.3%float);
      ("single", 1.5%float);
      ("unknown", 1.0%float) ] in
  let base_modifier := get (dict_get modifiers pattern) 1.0%float in
  if String.eqb pattern "chronic_criminal"
     && str_in crime_type ["Кража"; "Грабеж"]
  then (base_modifier * 0.9)%float
  else if String.eqb pattern "escalating"
          && str_in crime_type ["Разбой"; "Убийство"]
  then (base_modifier * 0.8)%float
  else base_modifier.

Definition _get_social_modifier (data : person_data) : float :=
  let modifier := 1.0%float in
  let modifier :=
    if get (has_property data) 0 =? 0 then (modifier * 0.85)%float
    else modifier in
  let modifier :=
    if get (has_job data) 0 =? 0 then (modifier * 0.9)%float
    else modifier in
  let modifier :=
    if get (substance_abuse data) 0 =? 1 then (modifier * 0.8)%float
    else modifier in
  modifier.

Definition _calculate_confidence (data : person_data)
    (crime_type : string) : string :=
  let factors := 0 in
  let factors :=
    if get (total_cases data) 0 >? 5 then factors + 1 else factors in
  let factors :=
    if negb (String.eqb (get (pattern_type data) "unknown") "unknown")
    then factors + 1 else factors in
  let factors :=
    if get (has_escalation data) 0 =? 1 then factors + 1 else factors in
  if factors >=? 3 then "Высокая"
  else if factors >=? 2 then "Средняя"
  else "Низкая".

Definition _get_timeline_risk_level (days : Z) : string :=
  if days <? 60 then "🔴 Критический период"
  else if days <? 120 then "🟡 Высокий риск"
  else if days <? 180 then "🟠 Средний риск"
  else "🟢 Низкий риск".

(** [now] is the reading of [datetime.now()] in this call. *)
Definition _calculate_single_forecast (now : Z)
    (person_data : person_data) (crime_type : string) (base_days : Z)
  : result forecast :=
  let age_modifier := _get_age_modifier person_data in
  let pattern_modifier := _get_pattern_modifier person_data crime_type in
  let social_modifier := _get_social_modifier person_data in
  forecast_days <-
    try_except
      (b <- float_of_int base_days ;;
       forecast_days <-
         int_of_float
           (b * age_modifier * pattern_modifier * social_modifier)%float ;;
       Ok (Z.max 30 (Z.min 365 forecast_days)))
      (fun e => match e with
                | TypeError | ValueError => true
                | _ => false
                end)
      (let forecast_days := base_days in
       Ok (Z.max 30 (Z.min 365 forecast_days))) ;;
  ci_lower <-
    (d <- float_of_int forecast_days ;; int_of_float (d * 0.7)%float) ;;
  ci_upper <-
    (d <- float_of_int forecast_days ;; int_of_float (d * 1.4)%float) ;;
  probability <-
    RiskCalculator.calculate_crime_probability
      person_data crime_type forecast_days ;;
  let forecast_date := now + timedelta forecast_days in
  let confidence := _calculate_confidence person_data crime_type in
  Ok {| crime_type := crime_type;
        days := forecast_days;
        date := forecast_date;
        probability := probability;
        ci_lower := ci_lower;
        ci_upper := ci_upper;
        confidence := confidence;
        risk_level := _get_timeline_risk_level forecast_days |}.

(** The [for] loop of [forecast_crime_timeline]; [clock i] is what
    [datetime.now()] returns in the [i]-th iteration. *)
Fixpoint forecast_loop (clock : nat -> Z) (person_data : person_data)
    (items : list (string * Z)) (i : nat) (forecasts : dict forecast)
  : result (dict forecast) :=
  match items with
  | [] => Ok forecasts
  | (crime_type, base_days) :: items' =>
      forecast <-
        _calculate_single_forecast (clock i) person_data crime_type
          base_days ;;
      forecast_loop clock person_data items' (S i)
        (dict_set forecasts crime_type forecast)
  end.

Definition forecast_crime_timeline (clock : nat -> Z)
    (person_data : person_data) : result (dict forecast) :=
  forecasts <-
    forecast_loop clock person_data (dict_items base_windows) 0%nat [] ;;
  let sorted_forecasts :=
    dict_of_items
      (sorted (dict_items forecasts) (fun x => days (snd x))) in
  Ok sorted_forecasts.

End CrimeForecaster.

End Utils.

(** ** src/backend/app/core/constants.py *)

Module Constants.

Definition CRIME_TIME_WINDOWS : dict Z :=
  [ ("Мошенничество", 109);
    ("Кража", 146);
    ("Убийство", 143);
    ("Вымогательство", 144);
    ("Грабеж", 148);
    ("Разбой", 150);
    ("Изнасилование", 157);
    ("Хулиганство", 155) ].

Definition PREVENTION_RATES : dict Q :=
  [ ("Мошенничество", 82.3%Q);
    ("Кража", 87.3%Q);
    ("Убийство", 97.0%Q);
    ("Вымогательство", 100.0%Q);
    ("Грабеж", 60.2%Q);
    ("Разбой", 20.2%Q);
    ("Изнасилование", 65.6%Q);
    ("Хулиганство", 45.0%Q) ].

Definition RISK_WEIGHTS : dict Q :=
  [ ("pattern_weight", 0.25%Q);
    ("history_weight", 0.20%Q);
    ("time_weight", 0.15%Q);
    ("age_weight", 0.10%Q);
    ("social_weight", 0.15%Q);
    ("escalation_weight", 0.15%Q) ].

Definition PATTERN_RISKS : dict Q :=
  [ ("mixed_unstable", 0.8%Q);
    ("chronic_criminal", 0.9%Q);
    ("escalating", 0.85%Q);
    ("deescalating", 0.4%Q);
    ("single", 0.3%Q);
    ("unknown", 0.5%Q) ].

Definition MIN_FORECAST_DAYS : Z := 30.
Definition MAX_FORECAST_DAYS : Z := 365.

End Constants.

(** ** src/backend/app/services/risk_service.py *)

Module Backend.

Module RiskCalculator.

Definition weights : dict Q := Constants.RISK_WEIGHTS.

Definition pattern_risks : dict Q := Constants.PATTERN_RISKS.

Definition _calculate_history_score (data : person_data) : result Q :=
  let total_cases := get (total_cases data) 0 in
  let criminal_count := get (criminal_count data) 0 in
  if total_cases =? 0 then Ok 0%Q
  else
    let base_score : Q :=
      if total_cases <=? 2 then 2%Q
      else if total_cases <=? 5 then 4%Q
      else if total_cases <=? 10 then 6%Q
      else 8%Q in
    base_score <-
      (if criminal_count >? 0 then
         criminal_ratio <- truediv criminal_count total_cases ;;
         Ok (base_score + criminal_ratio * 2)%Q
       else Ok base_score) ;;
    Ok (Py.min 10 base_score).

Definition _calculate_time_score (data : person_data) : Z :=
  let days_since_last := get (days_since_last data) 365 in
  let time_score :=
    if days_since_last <? 30 then 10
    else if days_since_last <? 90 then 8
    else if days_since_last <? 180 then 6
    else if days_since_last <? 365 then 4
    else 2 in
  let recidivism_rate := get (recidivism_rate data) 0%Q in
  if Qltb 2 recidivism_rate then Z.min 10 (time_score + 2)
  else time_score.

Definition _calculate_age_score (data : person_data) : Z :=
  let age := get (current_age data) 35 in
  let age_at_first := get (age_at_first_violation data) age in
  let base_score :=
    if (18 <=? age) && (age <=? 25) then 8
    else if (26 <=? age) && (age <=? 35) then 6
    else if (36 <=? age) && (age <=? 45) then 4
    else 2 in
  let base_score :=
    if age_at_first <? 18 then base_score + 3
    else if age_at_first <? 21 then base_score + 2
    else if age_at_first <? 25 then base_score + 1
    else base_score in
  Z.min 10 base_score.

Definition _calculate_social_score (data : person_data) : Z :=
  let score := 5 in
  let score := if get (has_property data) 0 =? 1 then score - 2 else score in
  let score := if get (has_job data) 0 =? 1 then score - 2 else score in
  let score := if get (has_family data) 0 =? 1 then score - 1 else score in
  let score := if get (has_property data) 0 =? 0 then score + 1 else score in
  let score := if get (has_job data) 0 =? 0 then score + 1 else score in
  let score := if get (substance_abuse data) 0 =? 1 then score + 2 else score in
  Z.max 0 (Z.min 10 score).

Definition _calculate_escalation_score (data : person_data) : Z :=
  let has_escalation := get (has_escalation data) 0 in
  let admin_to_criminal := get (admin_to_criminal data) 0 in
  if negb (has_escalation =? 0) then
    if admin_to_criminal >? 2 then 9
    else if admin_to_criminal >? 0 then 7
    else 5
  else
    if get (admin_count data) 0 >? 5 then 4
    else 2.

Definition calculate_risk_score (person_data : person_data)
  : result (Q * dict Q) :=
  let components : dict Q := [] in
  let pattern := get (pattern_type person_data) "unknown" in
  let pattern_score := (get (dict_get pattern_risks pattern) 0.5 * 10)%Q in
  w <- dict_index weights "pattern_weight" ;;
  let components := dict_set components "pattern" (pattern_score * w)%Q in
  history_score <- _calculate_history_score person_data ;;
  w <- dict_index weights "history_weight" ;;
  let components := dict_set components "history" (history_score * w)%Q in
  let time_score := _calculate_time_score person_data in
  w <- dict_index weights "time_weight" ;;
  let components :=
    dict_set components "time" (inject_Z time_score * w)%Q in
  let age_score := _calculate_age_score person_data in
  w <- dict_index weights "age_weight" ;;
  let components := dict_set components "age" (inject_Z age_score * w)%Q in
  let social_score := _calculate_social_score person_data in
  w <- dict_index weights "social_weight" ;;
  let components :=
    dict_set components "social" (inject_Z social_score * w)%Q in
  let escalation_score := _calculate_escalation_score person_data in
  w <- dict_index weights "escalation_weight" ;;
  let components :=
    dict_set components "escalation" (inject_Z escalation_score * w)%Q in
  let risk_score := Py.sum (dict_values components) in
  let risk_score := Py.max 0 (Py.min 10 risk_score) in
  Ok (risk_score, components).

Definition get_risk_level (risk_score : Q) : string * string :=
  if Qle_bool 7 risk_score then
    ("🔴 Критический", "Требует немедленного вмешательства")
  else if Qle_bool 5 risk_score then
    ("🟡 Высокий", "Усиленный контроль и мониторинг")
  else if Qle_bool 3 risk_score then
    ("🟠 Средний", "Стандартный контроль")
  else
    ("🟢 Низкий", "Минимальный контроль").

Definition calculate_crime_probability
    (person_data : person_data) (crime_type : string) (days_ahead : Z)
  : result Q :=
  let base_probabilities : dict Q := Constants.PREVENTION_RATES in
  let base_prob := get (dict_get base_probabilities crime_type) 50.0%Q in
  '(risk_score, _) <- calculate_risk_score person_data ;;
  let risk_modifier := (risk_score / 10)%Q in
  let time_windows : dict Z := Constants.CRIME_TIME_WINDOWS in
  let expected_days := get (dict_get time_windows crime_type) 140 in
  let time_modifier :=
    if Qltb (inject_Z days_ahead) (inject_Z expected_days * 0.5) then 0.6%Q
    else if days_ahead <? expected_days then 0.8%Q
    else if Qltb (inject_Z days_ahead) (inject_Z expected_days * 1.5)
         then 1.0%Q
    else 0.7%Q in
  let pattern := get (pattern_type person_data) "unknown" in
  let pattern_modifier :=
    if String.eqb pattern "chronic_criminal"
       && str_in crime_type ["Кража"; "Грабеж"] then 1.3%Q
    else if String.eqb pattern "escalating"
            && str_in crime_type ["Грабеж"; "Разбой"] then 1.2%Q
    else if String.eqb pattern "mixed_unstable" then 1.1%Q
    else 1.0%Q in
  let probability :=
    (base_prob * risk_modifier * time_modifier * pattern_modifier)%Q in
  Ok (Py.max 5 (Py.min 95 probability)).

End RiskCalculator.

Module CrimeForecaster.

Definition base_windows : dict Z := Constants.CRIME_TIME_WINDOWS.

Definition _get_age_modifier (data : person_data) : float :=
  let age := get (current_age data) 35 in
  if age <? 25 then 0.8%float
  else if age <? 35 then 0.9%float
  else if age <? 45 then 1.1%float
  else 1.3%float.

Definition _get_pattern_modifier (data : person_data)
    (crime_type : string) : float :=
  let pattern := get (pattern_type data) "unknown" in
  let modifiers : dict float :=
    [ ("mixed_unstable", 0.9%float);
      ("chronic_criminal", 0.7%float);
      ("escalating", 0.6%float);
      ("deescalating", 1.3%float);
      ("single", 1.5%float);
      ("unknown", 1.0%float) ] in
  let base_modifier := get (dict_get modifiers pattern) 1.0%float in
  if String.eqb pattern "chronic_criminal"
     && str_in crime_type ["Кража"; "Грабеж"]
  then (base_modifier * 0.9)%float
  else if String.eqb pattern "escalating"
          && str_in crime_type ["Разбой"; "Убийство"]
  then (base_modifier * 0.8)%float
  else base_modifier.

Definition _get_social_modifier (data : person_data) : float :=
  let modifier := 1.0%float in
  let modifier :=
    if get (has_property data) 0 =? 0 then (modifier * 0.85)%float
    else modifier in
  let modifier :=
    if get (has_job data) 0 =? 0 then (modifier * 0.9)%float
    else modifier in
  let modifier :=
    if get (substance_abuse data) 0 =? 1 then (modifier * 0.8)%float
    else modifier in
  modifier.

Definition _calculate_confidence (data : person_data)
    (crime_type : string) : string :=
  let factors := 0 in
  let factors :=
    if get (total_cases data) 0 >? 5 then factors + 1 else factors in
  let factors :=
    if negb (String.eqb (get (pattern_type data) "unknown") "unknown")
    then factors + 1 else factors in
  let factors :=
    if get (has_escalation data) 0 =? 1 then factors + 1 else factors in
  if factors >=? 3 then "Высокая"
  else if factors >=? 2 then "Средняя"
  else "Низкая".

Definition _get_timeline_risk_level (days : Z) : string :=
  if days <? 60 then "🔴 Критический период"
  else if days <? 120 then "🟡 Высокий риск"
  else if days <? 180 then "🟠 Средний риск"
  else "🟢 Низкий риск".

(** [now] is the reading of [datetime.now()] in this call. *)
Definition _calculate_single_forecast (now : Z)
    (person_data : person_data) (crime_type : string) (base_days : Z)
  : result forecast :=
  let age_modifier := _get_age_modifier person_data in
  let pattern_modifier := _get_pattern_modifier person_data crime_type in
  let social_modifier := _get_social_modifier person_data in
  forecast_days <-
    try_except
      (b <- float_of_int base_days ;;
       forecast_days <-
         int_of_float
           (b * age_modifier * pattern_modifier * social_modifier)%float ;;
       Ok (Z.max 30 (Z.min 365 forecast_days)))
      (fun e => match e with
                | TypeError | ValueError => true
                | _ => false
                end)
      (let forecast_days := base_days in
       Ok (Z.max 30 (Z.min 365 forecast_days))) ;;
  ci_lower <-
    (d <- float_of_int forecast_days ;; int_of_float (d * 0.7)%float) ;;
  ci_upper <-
    (d <- float_of_int forecast_days ;; int_of_float (d * 1.4)%float) ;;
  probability <-
    RiskCalculator.calculate_crime_probability
      person_data crime_type forecast_days ;;
  let forecast_date := now + timedelta forecast_days in
  let confidence := _calculate_confidence person_data crime_type in
  Ok {| crime_type := crime_type;
        days := forecast_days;
        date := forecast_date;
        probability := probability;
        ci_lower := ci_lower;
        ci_upper := ci_upper;
        confidence := confidence;
        risk_level := _get_timeline_risk_level forecast_days |}.

(** The [for] loop of [forecast_crime_timeline]; [clock i] is what
    [datetime.now()] returns in the [i]-th iteration. *)
Fixpoint forecast_loop (clock : nat -> Z) (person_data : person_data)
    (items : list (string * Z)) (i : nat) (forecasts : dict forecast)
  : result (dict forecast) :=
  match items with
  | [] => Ok forecasts
  | (crime_type, base_days) :: items' =>
      forecast <-
        _calculate_single_forecast (clock i) person_data crime_type
          base_days ;;
      forecast_loop clock person_data items' (S i)
        (dict_set forecasts crime_type forecast)
  end.

Definition forecast_crime_timeline (clock : nat -> Z)
    (person_data : person_data) : result (dict forecast) :=
  forecasts <-
    forecast_loop clock person_data (dict_items base_windows) 0%nat [] ;;
  let sorted_forecasts :=
    dict_of_items
      (sorted (dict_items forecasts) (fun x => days (snd x))) in
  Ok sorted_forecasts.

End CrimeForecaster.

End Backend.


(** ** The specification's formulas

    Written from the text of the specification (sections 3, 4.1, 4.2 and 8),
    with exact rational arithmetic, to be compared with the code above. *)

Module Spec.

Definition Theft : string := "Кража".
Definition Robbery : string := "Грабеж".
Definition Armed_robbery : string := "Разбой".
Definition Murder : string := "Убийство".

(** [clamp(x, lo, hi)] *)
Definition clamp (x lo hi : Q) : Q := Qmax lo (Qmin hi x).
Definition clampZ (x lo hi : Z) : Z := Z.max lo (Z.min hi x).

(** [round(x)]: to the nearest integer, a tie to the even one. *)
Definition round (x : Q) : Z :=
  let f := Qfloor x in
  match (x - inject_Z f ?= 1 # 2)%Q with
  | Lt => f
  | Gt => f + 1
  | Eq => if Z.even f then f else f + 1
  end.

(** The integer part of [x]: toward zero. *)
Definition truncate (x : Q) : Z :=
  if Qle_bool 0 x then Qfloor x else Qceiling x.

(** Section 4.2, [age_modifier]. *)
Definition age_modifier (data : person_data) : Q :=
  let age := get (current_age data) 35 in
  if age <? 25 then 0.8%Q
  else if age <? 35 then 0.9%Q
  else if age <? 45 then 1.1%Q
  else 1.3%Q.

(** Section 4.2, [pattern_modifier]. *)
Definition pattern_base (pattern : string) : Q :=
  if String.eqb pattern "mixed_unstable" then 0.9%Q
  else if String.eqb pattern "chronic_criminal" then 0.7%Q
  else if String.eqb pattern "escalating" then 0.6%Q
  else if String.eqb pattern "deescalating" then 1.3%Q
  else if String.eqb pattern "single" then 1.5%Q
  else 1.0%Q.

Definition pattern_modifier (data : person_data) (crime : string) : Q :=
  let pattern := get (pattern_type data) "unknown" in
  if String.eqb pattern "chronic_criminal" && str_in crime [Theft; Robbery]
  then (pattern_base pattern * 0.9)%Q
  else if String.eqb pattern "escalating"
          && str_in crime [Armed_robbery; Murder]
  then (pattern_base pattern * 0.8)%Q
  else pattern_base pattern.

(** Section 4.2, [social_modifier]. *)
Definition social_modifier (data : person_data) : Q :=
  let no_property := get (has_property data) 0 =? 0 in
  let no_job := get (has_job data) 0 =? 0 in
  let abuse := get (substance_abuse data) 0 =? 1 in
  (1.0
   * (if no_property then 0.85 else 1)
   * (if no_job then 0.9 else 1)
   * (if abuse then 0.8 else 1))%Q.

Definition days_product (data : person_data) (crime : string) (B : Z) : Q :=
  (inject_Z B * age_modifier data * pattern_modifier data crime
   * social_modifier data)%Q.

(** [days = clamp(round(B * age * pattern * social), 30, 365)] *)
Definition days_rounded (data : person_data) (crime : string) (B : Z) : Z :=
  clampZ (round (days_product data crime B)) 30 365.

(** The same with the integer part in place of [round]. *)
Definition days_truncated (data : person_data) (crime : string) (B : Z) : Z :=
  clampZ (truncate (days_product data crime B)) 30 365.

(** [confidence_interval = (round(days*0.7), round(days*1.4))] *)
Definition ci_rounded (days : Z) : Z * Z :=
  (round (inject_Z days * 0.7), round (inject_Z days * 1.4)).

Definition ci_truncated (days : Z) : Z * Z :=
  (truncate (inject_Z days * 0.7), truncate (inject_Z days * 1.4)).

(** Section 4.1, [time_modifier] of the crime-probability helper. *)
Definition time_modifier (days_ahead window : Z) : Q :=
  if Qltb (inject_Z days_ahead) (0.5 * inject_Z window) then 0.6%Q
  else if Qltb (inject_Z days_ahead) (inject_Z window) then 0.8%Q
  else if Qltb (inject_Z days_ahead) (1.5 * inject_Z window) then 1.0%Q
  else 0.7%Q.

(** Section 4.1, [pattern_modifier] of the crime-probability helper. *)
Definition probability_pattern_modifier (data : person_data)
    (crime : string) : Q :=
  let pattern := get (pattern_type data) "unknown" in
  if String.eqb pattern "chronic_criminal" && str_in crime [Theft; Robbery]
  then 1.3%Q
  else if String.eqb pattern "escalating"
          && str_in crime [Robbery; Armed_robbery]
  then 1.2%Q
  else if String.eqb pattern "mixed_unstable" then 1.1%Q
  else 1.0%Q.

(** Section 3: the input domain. *)
Definition pattern_types : list string :=
  [ "mixed_unstable"; "chronic_criminal"; "escalating"; "deescalating";
    "single"; "unknown" ].

Definition is_flag (field : option Z) : bool :=
  (get field 0 =? 0) || (get field 0 =? 1).

Definition in_domainb (data : person_data) : bool :=
  str_in (get (pattern_type data) "unknown") pattern_types
  && (0 <=? get (total_cases data) 0)
  && (0 <=? get (criminal_count data) 0)
  && (0 <=? get (admin_count data) 0)
  && (0 <=? get (days_since_last data) 365)
  && Qle_bool 0 (get (recidivism_rate data) 0%Q)
  && (14 <=? get (current_age data) 35)
  && (get (current_age data) 35 <=? 100)
  && (get (age_at_first_violation data) (get (current_age data) 35)
      <=? get (current_age data) 35)
  && is_flag (has_property data)
  && is_flag (has_job data)
  && is_flag (has_family data)
  && is_flag (substance_abuse data)
  && is_flag (has_escalation data)
  && (0 <=? get (admin_to_criminal data) 0).

Definition in_domain (data : person_data) : Prop := in_domainb data = true.

End Spec.

(** ** Records used in examples *)

(** The example of section 8. *)
Definition example_record : person_data := {|
  pattern_type := Some "mixed_unstable";
  total_cases := Some 5;
  criminal_count := Some 2;
  admin_count := Some 3;
  days_since_last := Some 60;
  current_age := Some 28;
  age_at_first_violation := Some 21;
  has_property := Some 0;
  has_job := Some 1;
  has_family := Some 0;
  substance_abuse := Some 0;
  has_escalation := Some 0;
  admin_to_criminal := Some 1;
  recidivism_rate := Some 1.5%Q
|}.

(** The empty dict: every key takes its default. *)
Definition empty_record : person_data := {|
  pattern_type := None;
  total_cases := None;
  criminal_count := None;
  admin_count := None;
  days_since_last := None;
  recidivism_rate := None;
  current_age := None;
  age_at_first_violation := None;
  has_property := None;
  has_job := None;
  has_family := None;
  substance_abuse := None;
  has_escalation := None;
  admin_to_criminal := None
|}.

(** A record on which every component is at its maximum, and one on which
    every component is at its minimum. *)
Definition highest_record : person_data := {|
  pattern_type := Some "chronic_criminal";
  total_cases := Some 12;
  criminal_count := Some 12;
  admin_count := Some 0;
  days_since_last := Some 10;
  recidivism_rate := Some 3%Q;
  current_age := Some 20;
  age_at_first_violation := Some 16;
  has_property := Some 0;
  has_job := Some 0;
  has_family := Some 0;
  substance_abuse := Some 1;
  has_escalation := Some 1;
  admin_to_criminal := Some 3
|}.

Definition lowest_record : person_data := {|
  pattern_type := Some "single";
  total_cases := Some 0;
  criminal_count := Some 0;
  admin_count := Some 0;
  days_since_last := Some 400;
  recidivism_rate := Some 0%Q;
  current_age := Some 50;
  age_at_first_violation := Some 50;
  has_property := Some 1;
  has_job := Some 1;
  has_family := Some 1;
  substance_abuse := Some 0;
  has_escalation := Some 0;
  admin_to_criminal := Some 0
|}.

(** A record of the section 3 domain whose quotient
    [criminal_count / total_cases] is beyond the float range. *)
Definition overflow_record : person_data := {|
  pattern_type := None;
  total_cases := Some 1;
  criminal_count := Some (10 ^ 400);
  admin_count := None;
  days_since_last := None;
  recidivism_rate := None;
  current_age := None;
  age_at_first_violation := None;
  has_property := None;
  has_job := None;
  has_family := None;
  substance_abuse := None;
  has_escalation := None;
  admin_to_criminal := None
|}.

(** ** Definitions used in the statements and proofs *)

(** The division of [_calculate_history_score] is not reached
    ([total_cases == 0], or [criminal_count > 0] is false), or its quotient
    is within the float range. *)
Definition ratio_fits (p : person_data) : bool :=
  let total_cases := get (total_cases p) 0 in
  let criminal_count := get (criminal_count p) 0 in
  (total_cases =? 0)
  || negb (criminal_count >? 0)
  || Qltb (Qabs (inject_Z criminal_count / inject_Z total_cases))
       float_overflow.

Definition components_of (p : person_data) (h : Q) : dict Q :=
  [ ("pattern",
     (get (dict_get Utils.RiskCalculator.pattern_risks
             (get (pattern_type p) "unknown")) 0.5 * 10 * 0.25)%Q);
    ("history", (h * 0.20)%Q);
    ("time", (inject_Z (Utils.RiskCalculator._calculate_time_score p) * 0.15)%Q);
    ("age", (inject_Z (Utils.RiskCalculator._calculate_age_score p) * 0.10)%Q);
    ("social",
     (inject_Z (Utils.RiskCalculator._calculate_social_score p) * 0.15)%Q);
    ("escalation",
     (inject_Z (Utils.RiskCalculator._calculate_escalation_score p) * 0.15)%Q) ].

(** The body of the [try] block of [_calculate_single_forecast], as a
    function of the base window and the three modifiers. *)
Definition forecast_days_body (base_days : Z)
    (age_modifier pattern_modifier social_modifier : float) : result Z :=
  b <- float_of_int base_days ;;
  forecast_days <-
    int_of_float
      (b * age_modifier * pattern_modifier * social_modifier)%float ;;
  Ok (Z.max 30 (Z.min 365 forecast_days)).

(** The whole [try ... except (TypeError, ValueError)] block. *)
Definition forecast_days_of (base_days : Z)
    (age_modifier pattern_modifier social_modifier : float) : result Z :=
  try_except
    (forecast_days_body base_days age_modifier pattern_modifier
       social_modifier)
    (fun e => match e with
              | TypeError | ValueError => true
              | _ => false
              end)
    (let forecast_days := base_days in
     Ok (Z.max 30 (Z.min 365 forecast_days))).

(** The values a modifier can take: in binary64 as the code computes it,
    and as the rational of the specification. *)
Definition age_modifiers : list (float * Q) :=
  [ (0.8%float, 0.8%Q); (0.9%float, 0.9%Q); (1.1%float, 1.1%Q);
    (1.3%float, 1.3%Q) ].

Definition pattern_modifiers : list (float * Q) :=
  [ (0.9%float, 0.9%Q);
    (0.7%float, 0.7%Q); ((0.7 * 0.9)%float, (0.7 * 0.9)%Q);
    (0.6%float, 0.6%Q); ((0.6 * 0.8)%float, (0.6 * 0.8)%Q);
    (1.3%float, 1.3%Q); (1.5%float, 1.5%Q); (1.0%float, 1.0%Q) ].

Definition social_modifiers : list (float * Q) :=
  flat_map
    (fun no_property : bool => flat_map
      (fun no_job : bool => map
        (fun abuse : bool =>
           let m := 1.0%float in
           let m := if no_property then (m * 0.85)%float else m in
           let m := if no_job then (m * 0.9)%float else m in
           let m := if abuse then (m * 0.8)%float else m in
           (m,
            (1.0 * (if no_property then 0.85 else 1)
             * (if no_job then 0.9 else 1)
             * (if abuse then 0.8 else 1))%Q))
        [true; false])
      [true; false])
    [true; false].

Definition result_Z_eqb (r : result Z) (z : Z) : bool :=
  match r with
  | Ok z' => z' =? z
  | Raise _ => false
  end.

Definition days_agree (x : Z * ((float * Q) * ((float * Q) * (float * Q))))
  : bool :=
  let '(b, ((fa, qa), ((fp, qp), (fs, qs)))) := x in
  result_Z_eqb (forecast_days_body b fa fp fs)
    (Spec.clampZ (Spec.truncate (inject_Z b * qa * qp * qs)%Q) 30 365).

(** [int(forecast_days * 0.7)] and [int(forecast_days * 1.4)]. *)
Definition ci_lower_of (forecast_days : Z) : result Z :=
  d <- float_of_int forecast_days ;; int_of_float (d * 0.7)%float.

Definition ci_upper_of (forecast_days : Z) : result Z :=
  d <- float_of_int forecast_days ;; int_of_float (d * 1.4)%float.

(** The day counts between 30 and 365 at which the binary64 product falls
    just below the integer it stands for. *)
Definition ci_lower_short : list Z := [90; 170; 180; 330; 340; 350; 360].
Definition ci_upper_short : list Z :=
  [45; 85; 90; 165; 170; 175; 180; 325; 330; 335; 340; 345; 350; 355; 360; 365].

Definition short_by (shorts : list Z) (d : Z) : Z :=
  if existsb (Z.eqb d) shorts then 1 else 0.

Definition ci_agree (d : Z) : bool :=
  result_Z_eqb (ci_lower_of d)
    (fst (Spec.ci_truncated d) - short_by ci_lower_short d)
  && result_Z_eqb (ci_upper_of d)
       (snd (Spec.ci_truncated d) - short_by ci_upper_short d)
  && (fst (Spec.ci_truncated d) <? d)
  && (d + 1 <? snd (Spec.ci_truncated d))
  && ((d mod 10 =? 0) || (short_by ci_lower_short d =? 0))
  && ((d mod 5 =? 0) || (short_by ci_upper_short d =? 0)).

Definition forecast_days_range : list Z :=
  map (fun i => 30 + Z.of_nat i) (seq 0 336).

Definition utils_time_windows : dict Z :=
  [ ("Мошенничество", 109);
    ("Кража", 146);
    ("Убийство", 143);
    ("Грабеж", 148);
    ("Разбой", 150);
    ("Изнасилование", 157);
    ("Вымогательство", 144);
    ("Хулиганство", 155) ].

Definition utils_base_probabilities : dict Q :=
  [ ("Кража", 87.3%Q);
    ("Мошенничество", 82.3%Q);
    ("Убийство", 97.0%Q);
    ("Грабеж", 60.2%Q);
    ("Разбой", 20.2%Q);
    ("Вымогательство", 100.0%Q);
    ("Изнасилование", 65.6%Q);
    ("Хулиганство", 45.0%Q) ].

Definition unwrap {A} (default : A) (r : result A) : A :=
  match r with
  | Ok a => a
  | Raise _ => default
  end.

(** The entry [_calculate_single_forecast] builds for a window of the
    table, where none of its steps raises. *)
Definition forecast_entry (now : Z) (p : person_data) (c : string) (b : Z)
  : forecast :=
  let d := Spec.days_truncated p c b in
  {| crime_type := c;
     days := d;
     date := now + timedelta d;
     probability :=
       unwrap 0%Q (Utils.RiskCalculator.calculate_crime_probability p c d);
     ci_lower := fst (Spec.ci_truncated d) - short_by ci_lower_short d;
     ci_upper := snd (Spec.ci_truncated d) - short_by ci_upper_short d;
     confidence := Utils.CrimeForecaster._calculate_confidence p c;
     risk_level := Utils.CrimeForecaster._get_timeline_risk_level d |}.

(** The forecasts in the order of the loop, before [sorted]. *)
Definition unsorted_timeline (clock : nat -> Z) (p : person_data)
  : dict forecast :=
  map (fun x : nat * (string * Z) =>
         let '(i, (c, b)) := x in (c, forecast_entry (clock i) p c b))
      (combine (seq 0 8) Utils.CrimeForecaster.base_windows).

(** A forecast without its wall-clock field. *)
Definition undated (f : forecast) : forecast :=
  {| crime_type := crime_type f;
     days := days f;
     date := 0;
     probability := probability f;
     ci_lower := ci_lower f;
     ci_upper := ci_upper f;
     confidence := confidence f;
     risk_level := risk_level f |}.

Definition undated_items (d : dict forecast) : dict forecast :=
  map (fun kv => (fst kv, undated (snd kv))) d.

(** What a call of [forecast_crime_timeline] gives, dates apart: the items
    without their dates, or the exception it raises. *)
Definition undated_result (r : result (dict forecast))
  : result (dict forecast) :=
  fs <- r ;; Ok (undated_items fs).

Definition days_key (x : string * forecast) : Z := days (snd x).

(** ** Module-level code of src/utils/risk_calculator.py *)

Module QuickAssessment.

(** The dict returned by [quick_risk_assessment]. *)
Record t : Type := {
  risk_score : Q;
  risk_level : string;
  recommendation : string;
  components : dict Q;
  most_likely_crime : option forecast
}.

End QuickAssessment.

Module risk_calculator.

Definition quick_risk_assessment (clock : nat -> Z)
    (person_data : person_data) : result QuickAssessment.t :=
  '(risk_score, components) <-
    Utils.RiskCalculator.calculate_risk_score person_data ;;
  let '(risk_level, recommendation) :=
    Utils.RiskCalculator.get_risk_level risk_score in
  forecasts <-
    Utils.CrimeForecaster.forecast_crime_timeline clock person_data ;;
  let most_likely :=
    match dict_values forecasts with
    | f :: _ => Some f
    | [] => None
    end in
  Ok {| QuickAssessment.risk_score := risk_score;
        QuickAssessment.risk_level := risk_level;
        QuickAssessment.recommendation := recommendation;
        QuickAssessment.components := components;
        QuickAssessment.most_likely_crime := most_likely |}.

End risk_calculator.

(** ** src/utils/data_loader.py *)

Module data_loader.

Definition get_risk_category (risk_score : Q) : string :=
  if Qle_bool 7 risk_score then "🔴 Критический"
  else if Qle_bool 5 risk_score then "🟡 Высокий"
  else if Qle_bool 3 risk_score then "🟠 Средний"
  else "🟢 Низкий".

End data_loader.

(** ** src/backend/app/core/constants.py, risk categories *)

Module RiskCategory.

(** One value of [RISK_CATEGORIES]. *)
Record t : Type := {
  range : Q * Q;
  label : string;
  color : string;
  description : string
}.

End RiskCategory.

Module constants.

Definition RISK_CATEGORIES : dict RiskCategory.t :=
  [ ("critical",
     {| RiskCategory.range := (7.0%Q, 10.0%Q);
        RiskCategory.label := "🔴 Критический";
        RiskCategory.color := "#dc2626";
        RiskCategory.description := "Требует немедленного вмешательства" |});
    ("high",
     {| RiskCategory.range := (5.0%Q, 7.0%Q);
        RiskCategory.label := "🟡 Высокий";
        RiskCategory.color := "#f59e0b";
        RiskCategory.description := "Усиленный контроль и мониторинг" |});
    ("medium",
     {| RiskCategory.range := (3.0%Q, 5.0%Q);
        RiskCategory.label := "🟠 Средний";
        RiskCategory.color := "#f97316";
        RiskCategory.description := "Стандартный контроль" |});
    ("low",
     {| RiskCategory.range := (0.0%Q, 3.0%Q);
        RiskCategory.label := "🟢 Низкий";
        RiskCategory.color := "#059669";
        RiskCategory.description := "Минимальный контроль" |}) ].

Definition RISK_THRESHOLD_CRITICAL : Q := 7.0.
Definition RISK_THRESHOLD_HIGH : Q := 5.0.
Definition RISK_THRESHOLD_MEDIUM : Q := 3.0.

Definition get_risk_category_by_score (score : Q) : result string :=
  if Qle_bool RISK_THRESHOLD_CRITICAL score then
    c <- dict_index RISK_CATEGORIES "critical" ;; Ok (RiskCategory.label c)
  else if Qle_bool RISK_THRESHOLD_HIGH score then
    c <- dict_index RISK_CATEGORIES "high" ;; Ok (RiskCategory.label c)
  else if Qle_bool RISK_THRESHOLD_MEDIUM score then
    c <- dict_index RISK_CATEGORIES "medium" ;; Ok (RiskCategory.label c)
  else
    c <- dict_index RISK_CATEGORIES "low" ;; Ok (RiskCategory.label c).

Definition get_risk_level_key (score : Q) : string :=
  if Qle_bool RISK_THRESHOLD_CRITICAL score then "critical"
  else if Qle_bool RISK_THRESHOLD_HIGH score then "high"
  else if Qle_bool RISK_THRESHOLD_MEDIUM score then "medium"
  else "low".

End constants.

(** ** src/backend/app/schemas/risk.py *)

Module schemas.

Inductive PatternType : Type :=
| MIXED_UNSTABLE
| CHRONIC_CRIMINAL
| ESCALATING
| DEESCALATING
| SINGLE
| UNKNOWN.

(** The string a member of the [str] enum stands for. *)
Definition PatternType_value (p : PatternType) : string :=
  match p with
  | MIXED_UNSTABLE => "mixed_unstable"
  | CHRONIC_CRIMINAL => "chronic_criminal"
  | ESCALATING => "escalating"
  | DEESCALATING => "deescalating"
  | SINGLE => "single"
  | UNKNOWN => "unknown"
  end.

Module RiskCalculationRequest.

Record t : Type := {
  iin : option string;
  pattern_type : PatternType;
  total_cases : Z;
  criminal_count : Z;
  admin_count : Z;
  days_since_last : Z;
  recidivism_rate : Q;
  current_age : Z;
  age_at_first_violation : option Z;
  has_property : Z;
  has_job : Z;
  has_family : Z;
  substance_abuse : Z;
  has_escalation : Z;
  admin_to_criminal : Z
}.

(** The bounds declared with [Field(..., ge=, le=)]. *)
Definition fields_in_bounds (r : t) : bool :=
  (0 <=? total_cases r)
  && (0 <=? criminal_count r)
  && (0 <=? admin_count r)
  && (0 <=? days_since_last r)
  && Qle_bool 0.0 (recidivism_rate r)
  && (14 <=? current_age r) && (current_age r <=? 100)
  && match age_at_first_violation r with
     | Some v => (14 <=? v) && (v <=? 100)
     | None => true
     end
  && (0 <=? has_property r) && (has_property r <=? 1)
  && (0 <=? has_job r) && (has_job r <=? 1)
  && (0 <=? has_family r) && (has_family r <=? 1)
  && (0 <=? substance_abuse r) && (substance_abuse r <=? 1)
  && (0 <=? has_escalation r) && (has_escalation r <=? 1)
  && (0 <=? admin_to_criminal r).

(** The three [@validator]s; [values_total_cases] and
    [values_current_age] are the entries of [values], present once the
    field itself has passed. *)
Definition validate_criminal_count (v : Z) (values_total_cases : option Z)
  : result Z :=
  match values_total_cases with
  | Some total_cases =>
      if v >? total_cases then Raise ValueError else Ok v
  | None => Ok v
  end.

Definition validate_admin_count (v : Z) (values_total_cases : option Z)
  : result Z :=
  match values_total_cases with
  | Some total_cases =>
      if v >? total_cases then Raise ValueError else Ok v
  | None => Ok v
  end.

Definition validate_first_violation_age (v : option Z)
    (values_current_age : option Z) : result (option Z) :=
  match v, values_current_age with
  | Some a, Some current_age =>
      if a >? current_age then Raise ValueError else Ok v
  | _, _ => Ok v
  end.

(** A request that the model class accepts: every field within its bounds
    and every validator passed. *)
Definition accepted (r : t) : bool :=
  fields_in_bounds r
  && match validate_criminal_count (criminal_count r) (Some (total_cases r))
     with Ok _ => true | Raise _ => false end
  && match validate_admin_count (admin_count r) (Some (total_cases r))
     with Ok _ => true | Raise _ => false end
  && match validate_first_violation_age (age_at_first_violation r)
             (Some (current_age r))
     with Ok _ => true | Raise _ => false end.

End RiskCalculationRequest.

(** [to_calculator_dict]: the keys of [self.dict(exclude_none=True)] that
    the calculators read ([iin] is not one of them). *)
Definition to_calculator_dict (self : RiskCalculationRequest.t)
  : person_data :=
  let age_at_first_violation :=
    match RiskCalculationRequest.age_at_first_violation self with
    | Some v => v
    | None => RiskCalculationRequest.current_age self
    end in
  let admin_count :=
    if (RiskCalculationRequest.admin_count self =? 0)
       && (RiskCalculationRequest.criminal_count self
           <? RiskCalculationRequest.total_cases self)
    then RiskCalculationRequest.total_cases self
         - RiskCalculationRequest.criminal_count self
    else RiskCalculationRequest.admin_count self in
  {| pattern_type :=
       Some (PatternType_value (RiskCalculationRequest.pattern_type self));
     total_cases := Some (RiskCalculationRequest.total_cases self);
     criminal_count := Some (RiskCalculationRequest.criminal_count self);
     admin_count := Some admin_count;
     days_since_last := Some (RiskCalculationRequest.days_since_last self);
     recidivism_rate := Some (RiskCalculationRequest.recidivism_rate self);
     current_age := Some (RiskCalculationRequest.current_age self);
     age_at_first_violation := Some age_at_first_violation;
     has_property := Some (RiskCalculationRequest.has_property self);
     has_job := Some (RiskCalculationRequest.has_job self);
     has_family := Some (RiskCalculationRequest.has_family self);
     substance_abuse := Some (RiskCalculationRequest.substance_abuse self);
     has_escalation := Some (RiskCalculationRequest.has_escalation self);
     admin_to_criminal :=
       Some (RiskCalculationRequest.admin_to_criminal self) |}.

End schemas.

(** ** Module-level code and [RiskService] of
    src/backend/app/services/risk_service.py *)

Module RiskResult.

(** The dict returned by [calculate_risk_for_person_dict]. *)
Record t : Type := {
  person_data : person_data;
  risk_score : Q;
  risk_components : dict Q;
  risk_level : string;
  recommendation : string;
  forecasts : dict forecast;
  quick_assessment : QuickAssessment.t;
  calculated_at : string
}.

End RiskResult.

Module risk_service.

Definition quick_risk_assessment (clock : nat -> Z)
    (person_data : person_data) : result QuickAssessment.t :=
  '(risk_score, components) <-
    Backend.RiskCalculator.calculate_risk_score person_data ;;
  let '(risk_level, recommendation) :=
    Backend.RiskCalculator.get_risk_level risk_score in
  forecasts <-
    Backend.CrimeForecaster.forecast_crime_timeline clock person_data ;;
  let most_likely :=
    match dict_values forecasts with
    | f :: _ => Some f
    | [] => None
    end in
  Ok {| QuickAssessment.risk_score := risk_score;
        QuickAssessment.risk_level := risk_level;
        QuickAssessment.recommendation := recommendation;
        QuickAssessment.components := components;
        QuickAssessment.most_likely_crime := most_likely |}.

Module RiskService.

(** [field in person_data] *)
Definition contains (person_data : person_data) (field : string) : bool :=
  let present {A} (o : option A) : bool :=
    match o with Some _ => true | None => false end in
  if String.eqb field "pattern_type" then present (pattern_type person_data)
  else if String.eqb field "total_cases" then
    present (total_cases person_data)
  else if String.eqb field "criminal_count" then
    present (criminal_count person_data)
  else if String.eqb field "admin_count" then
    present (admin_count person_data)
  else if String.eqb field "days_since_last" then
    present (days_since_last person_data)
  else if String.eqb field "recidivism_rate" then
    present (recidivism_rate person_data)
  else if String.eqb field "current_age" then
    present (current_age person_data)
  else if String.eqb field "age_at_first_violation" then
    present (age_at_first_violation person_data)
  else if String.eqb field "has_property" then
    present (has_property person_data)
  else if String.eqb field "has_job" then present (has_job person_data)
  else if String.eqb field "has_family" then present (has_family person_data)
  else if String.eqb field "substance_abuse" then
    present (substance_abuse person_data)
  else if String.eqb field "has_escalation" then
    present (has_escalation person_data)
  else if String.eqb field "admin_to_criminal" then
    present (admin_to_criminal person_data)
  else false.

(** [clock] gives the readings of [datetime.now()] in call order, [utcnow]
    the reading of [datetime.utcnow()], [isoformat] its rendering. *)
Definition calculate_risk_for_person_dict (clock : nat -> Z) (utcnow : Z)
    (isoformat : Z -> string) (person_data : person_data)
  : result RiskResult.t :=
  '(risk_score, components) <-
    Backend.RiskCalculator.calculate_risk_score person_data ;;
  let '(risk_level, recommendation) :=
    Backend.RiskCalculator.get_risk_level risk_score in
  forecasts <-
    Backend.CrimeForecaster.forecast_crime_timeline clock person_data ;;
  quick_assessment <-
    quick_risk_assessment (fun i => clock (8 + i)%nat) person_data ;;
  Ok {| RiskResult.person_data := person_data;
        RiskResult.risk_score := risk_score;
        RiskResult.risk_components := components;
        RiskResult.risk_level := risk_level;
        RiskResult.recommendation := recommendation;
        RiskResult.forecasts := forecasts;
        RiskResult.quick_assessment := quick_assessment;
        RiskResult.calculated_at := isoformat utcnow |}.

(** An element of the list returned by [calculate_risk_batch]: the full
    result, or the dict built in the [except] branch. *)
Inductive batch_item : Type :=
| Calculated (result : RiskResult.t)
| Failed (person_data : person_data) (error : string) (risk_score : Q)
    (calculated_at : string).

(** [clock n] is the clock of the [n]-th iteration, [utcnow n] its reading
    of [datetime.utcnow()], [str] the rendering [str(e)]. *)
Fixpoint calculate_risk_batch_from (n : nat) (clock : nat -> nat -> Z)
    (utcnow : nat -> Z) (isoformat : Z -> string) (str : exn -> string)
    (persons_data : list person_data) (results : list batch_item)
  : list batch_item :=
  match persons_data with
  | [] => results
  | person_data :: persons_data' =>
      let results :=
        match
          calculate_risk_for_person_dict (clock n) (utcnow n) isoformat
            person_data
        with
        | Ok result => (results ++ [Calculated result])%list
        | Raise e =>
            let error_result :=
              Failed person_data (str e) 0.0%Q (isoformat (utcnow n)) in
            (results ++ [error_result])%list
        end in
      calculate_risk_batch_from (S n) clock utcnow isoformat str
        persons_data' results
  end.

Definition calculate_risk_batch (clock : nat -> nat -> Z)
    (utcnow : nat -> Z) (isoformat : Z -> string) (str : exn -> string)
    (persons_data : list person_data) : list batch_item :=
  calculate_risk_batch_from 0 clock utcnow isoformat str persons_data [].

(** A key of [person_data] holds a value of its field's type, so the two
    [isinstance(..., int)] tests add no error. *)
Definition validate_person_data (person_data : person_data)
  : bool * list string :=
  let errors : list string := [] in
  let required_fields := ["pattern_type"; "total_cases"; "current_age"] in
  let errors :=
    fold_left
      (fun errors field =>
         if negb (contains person_data field)
         then (errors ++ [("Отсутствует поле '" ++ field ++ "'")%string])%list
         else errors)
      required_fields errors in
  let errors :=
    match total_cases person_data with
    | Some v =>
        if v <? 0
        then (errors ++ ["Количество дел не может быть отрицательным"])%list
        else errors
    | None => errors
    end in
  let errors :=
    match current_age person_data with
    | Some v =>
        if negb ((0 <? v) && (v <? 120))
        then (errors ++ ["Некорректный возраст"])%list
        else errors
    | None => errors
    end in
  let errors :=
    match pattern_type person_data with
    | Some v =>
        let valid_patterns := dict_keys Constants.PATTERN_RISKS in
        if negb (str_in v valid_patterns)
        then (errors ++ [("Неизвестный паттерн '" ++ v ++ "'")%string])%list
        else errors
    | None => errors
    end in
  (Nat.eqb (List.length errors) 0, errors).

End RiskService.

End risk_service.

(** ** Records with one key replaced *)

(** [dict(person_data, has_job=v)] *)
Definition with_has_job (v : Z) (p : person_data) : person_data := {|
  pattern_type := pattern_type p;
  total_cases := total_cases p;
  criminal_count := criminal_count p;
  admin_count := admin_count p;
  days_since_last := days_since_last p;
  recidivism_rate := recidivism_rate p;
  current_age := current_age p;
  age_at_first_violation := age_at_first_violation p;
  has_property := has_property p;
  has_job := Some v;
  has_family := has_family p;
  substance_abuse := substance_abuse p;
  has_escalation := has_escalation p;
  admin_to_criminal := admin_to_criminal p
|}.

(** [dict(person_data, substance_abuse=v)] *)
Definition with_substance_abuse (v : Z) (p : person_data) : person_data := {|
  pattern_type := pattern_type p;
  total_cases := total_cases p;
  criminal_count := criminal_count p;
  admin_count := admin_count p;
  days_since_last := days_since_last p;
  recidivism_rate := recidivism_rate p;
  current_age := current_age p;
  age_at_first_violation := age_at_first_violation p;
  has_property := has_property p;
  has_job := has_job p;
  has_family := has_family p;
  substance_abuse := Some v;
  has_escalation := has_escalation p;
  admin_to_criminal := admin_to_criminal p
|}.

(** The bounds of the interval at [d] days, as [ci_closed] gives them; the
    check that they are within their ranges and do not decrease from [d]
    to [d + 1]. *)
Definition ci_lower_at (d : Z) : Z :=
  fst (Spec.ci_truncated d) - short_by ci_lower_short d.

Definition ci_upper_at (d : Z) : Z :=
  snd (Spec.ci_truncated d) - short_by ci_upper_short d.

Definition ci_step_ok (d : Z) : bool :=
  (21 <=? ci_lower_at d) && (ci_lower_at d <=? 255)
  && (42 <=? ci_upper_at d) && (ci_upper_at d <=? 510)
  && (ci_lower_at d <=? ci_lower_at (d + 1))
  && (ci_upper_at d <=? ci_upper_at (d + 1)).

(** The example request of the schema ([Config.json_schema_extra]). *)
Definition example_request : schemas.RiskCalculationRequest.t := {|
  schemas.RiskCalculationRequest.iin := Some "123456789012";
  schemas.RiskCalculationRequest.pattern_type := schemas.MIXED_UNSTABLE;
  schemas.RiskCalculationRequest.total_cases := 5;
  schemas.RiskCalculationRequest.criminal_count := 2;
  schemas.RiskCalculationRequest.admin_count := 3;
  schemas.RiskCalculationRequest.days_since_last := 45;
  schemas.RiskCalculationRequest.recidivism_rate := 1.2%Q;
  schemas.RiskCalculationRequest.current_age := 28;
  schemas.RiskCalculationRequest.age_at_first_violation := Some 22;
  schemas.RiskCalculationRequest.has_property := 0;
  schemas.RiskCalculationRequest.has_job := 1;
  schemas.RiskCalculationRequest.has_family := 0;
  schemas.RiskCalculationRequest.substance_abuse := 0;
  schemas.RiskCalculationRequest.has_escalation := 1;
  schemas.RiskCalculationRequest.admin_to_criminal := 1
|}.

(** A request that gives only the required fields. *)
Definition minimal_request : schemas.RiskCalculationRequest.t := {|
  schemas.RiskCalculationRequest.iin := None;
  schemas.RiskCalculationRequest.pattern_type := schemas.UNKNOWN;
  schemas.RiskCalculationRequest.total_cases := 4;
  schemas.RiskCalculationRequest.criminal_count := 1;
  schemas.RiskCalculationRequest.admin_count := 0;
  schemas.RiskCalculationRequest.days_since_last := 365;
  schemas.RiskCalculationRequest.recidivism_rate := 0.0%Q;
  schemas.RiskCalculationRequest.current_age := 40;
  schemas.RiskCalculationRequest.age_at_first_violation := None;
  schemas.RiskCalculationRequest.has_property := 0;
  schemas.RiskCalculationRequest.has_job := 0;
  schemas.RiskCalculationRequest.has_family := 0;
  schemas.RiskCalculationRequest.substance_abuse := 0;
  schemas.RiskCalculationRequest.has_escalation := 0;
  schemas.RiskCalculationRequest.admin_to_criminal := 0
|}.

(** What [calculate_risk_batch] appends for the record [snd ip] in
    iteration [fst ip]. *)
Definition batch_item_of (clock : nat -> nat -> Z) (utcnow : nat -> Z)
    (isoformat : Z -> string) (str : exn -> string)
    (ip : nat * person_data)
    (item : risk_service.RiskService.batch_item) : Prop :=
  let i := fst ip in
  let p := snd ip in
  if ratio_fits p then
    exists res,
      risk_service.RiskService.calculate_risk_for_person_dict (clock i)
        (utcnow i) isoformat p = Ok res
      /\ RiskResult.person_data res = p
      /\ item = risk_service.RiskService.Calculated res
  else
    item
    = risk_service.RiskService.Failed p (str OverflowError) 0.0%Q
        (isoformat (utcnow i)).

(** * Properties *)

(** ** Comparisons, [min] and [max] *)

Lemma Qltb_lt (x y : Q) : Qltb x y = true <-> (x < y)%Q.
Proof.
  unfold Qltb. rewrite negb_true_iff, <- not_true_iff_false, Qle_bool_iff.
  split; [apply Qnot_le_lt | apply Qlt_not_le].
Qed.

Lemma Qltb_ge (x y : Q) : Qltb x y = false <-> (y <= x)%Q.
Proof.
  unfold Qltb. rewrite negb_false_iff. apply Qle_bool_iff.
Qed.

Lemma py_min_le_l (a b : Q) : (Py.min a b <= a)%Q.
Proof.
  unfold Py.min. destruct (Qltb b a) eqn:E.
  - apply Qltb_lt in E. lra.
  - lra.
Qed.

Lemma py_min_le_r (a b : Q) : (Py.min a b <= b)%Q.
Proof.
  unfold Py.min. destruct (Qltb b a) eqn:E.
  - lra.
  - apply Qltb_ge in E. lra.
Qed.

Lemma py_min_id (a b : Q) : (b <= a)%Q -> (Py.min a b == b)%Q.
Proof.
  intros H. unfold Py.min. destruct (Qltb b a) eqn:E.
  - reflexivity.
  - apply Qltb_ge in E. lra.
Qed.

Lemma py_max_id (a b : Q) : (a <= b)%Q -> (Py.max a b == b)%Q.
Proof.
  intros H. unfold Py.max. destruct (Qltb a b) eqn:E.
  - reflexivity.
  - apply Qltb_ge in E. lra.
Qed.

Lemma py_min_Qmin (a b : Q) : (Py.min a b == Qmin a b)%Q.
Proof.
  unfold Py.min. destruct (Qltb b a) eqn:E.
  - apply Qltb_lt in E. rewrite Q.min_r; [reflexivity | lra].
  - apply Qltb_ge in E. rewrite Q.min_l; [reflexivity | lra].
Qed.

Lemma py_max_Qmax (a b : Q) : (Py.max a b == Qmax a b)%Q.
Proof.
  unfold Py.max. destruct (Qltb a b) eqn:E.
  - apply Qltb_lt in E. rewrite Q.max_r; [reflexivity | lra].
  - apply Qltb_ge in E. rewrite Q.max_l; [reflexivity | lra].
Qed.

Lemma py_clamp_spec (x lo hi : Q) :
  (Py.max lo (Py.min hi x) == Spec.clamp x lo hi)%Q.
Proof.
  unfold Spec.clamp. rewrite py_max_Qmax.
  apply Q.max_compat; [reflexivity | apply py_min_Qmin].
Qed.

Lemma py_clamp_bounds (x lo hi : Q) :
  (lo <= hi)%Q -> (lo <= Py.max lo (Py.min hi x) <= hi)%Q.
Proof.
  intros H. pose proof (py_min_le_l hi x) as Hm.
  unfold Py.max. destruct (Qltb lo (Py.min hi x)) eqn:E.
  - apply Qltb_lt in E. lra.
  - lra.
Qed.

(** ** The history score *)

Lemma ratio_nonneg (a b : Z) : 0 < a -> 0 < b -> (0 <= inject_Z a / inject_Z b)%Q.
Proof.
  intros Ha Hb. apply Qle_shift_div_l.
  - change 0%Q with (inject_Z 0). rewrite <- Zlt_Qlt. exact Hb.
  - rewrite Qmult_0_l. change 0%Q with (inject_Z 0). rewrite <- Zle_Qle. lia.
Qed.

Lemma truediv_fits (a b : Z) :
  b <> 0 ->
  (Qabs (inject_Z a / inject_Z b) < float_overflow)%Q ->
  truediv a b = Ok (inject_Z a / inject_Z b)%Q.
Proof.
  intros Hb Hq. unfold truediv.
  apply Z.eqb_neq in Hb. rewrite Hb. cbv zeta.
  apply Qltb_lt in Hq. unfold Qltb in Hq.
  destruct (Qle_bool float_overflow _); [discriminate Hq | reflexivity].
Qed.

(** The limit of the division is the limit of [float(n)]: the least
    integer that does not convert is [2^1024 - 2^970], and the one before
    it converts to the largest float. *)
Example truediv_limit :
  float_of_int (2 ^ 1024 - 2 ^ 970) = Raise OverflowError
  /\ truediv (2 ^ 1024 - 2 ^ 970) 1 = Raise OverflowError
  /\ float_of_int (2 ^ 1024 - 2 ^ 970 - 1)
     = Ok 1.7976931348623157e+308%float
  /\ truediv (2 ^ 1024 - 2 ^ 970 - 1) 1
     = Ok (inject_Z (2 ^ 1024 - 2 ^ 970 - 1) / inject_Z 1)%Q
  /\ truediv (10 ^ 400) 1 = Raise OverflowError
  /\ truediv 1 0 = Raise ZeroDivisionError.
Proof. repeat split; vm_compute; reflexivity. Qed.

(** Where the quotient fits, the history score is returned. *)
Lemma history_score_ok (p : person_data) :
  ratio_fits p = true ->
  exists h,
    Utils.RiskCalculator._calculate_history_score p = Ok h
    /\ (h <= 10)%Q
    /\ (0 <= get (total_cases p) 0 -> (0 <= h)%Q).
Proof.
  intros Hfit. unfold ratio_fits in Hfit.
  unfold Utils.RiskCalculator._calculate_history_score.
  destruct (get (total_cases p) 0 =? 0) eqn:E0.
  - exists 0%Q. repeat split; intros; lra.
  - set (base := if get (total_cases p) 0 <=? 2 then 2%Q
                 else if get (total_cases p) 0 <=? 5 then 4%Q
                 else if get (total_cases p) 0 <=? 10 then 6%Q else 8%Q).
    assert (Hbase : (2 <= base <= 8)%Q).
    { subst base. repeat match goal with
        | |- context [if ?c then _ else _] => destruct c end; lra. }
    destruct (get (criminal_count p) 0 >? 0) eqn:Ec.
    + cbn [orb negb] in Hfit. unfold Qltb in Hfit.
      unfold truediv. rewrite E0. cbv zeta.
      destruct (Qle_bool float_overflow _); [discriminate Hfit|].
      cbn [bind].
      eexists. split; [reflexivity|]. split; [apply py_min_le_l|].
      intros Ht. apply Z.eqb_neq in E0. apply Z.gtb_lt in Ec.
      pose proof (ratio_nonneg (get (criminal_count p) 0)
                    (get (total_cases p) 0) Ec ltac:(lia)) as Hr.
      unfold Py.min.
      destruct (Qltb _ _); [|lra].
      nra.
    + cbn [bind]. eexists. split; [reflexivity|]. split; [apply py_min_le_l|].
      intros _. unfold Py.min. destruct (Qltb base 10); lra.
Qed.

(** Where it does not, the division raises, and with it the history score
    and [calculate_risk_score]. *)
Lemma history_score_overflow (p : person_data) :
  ratio_fits p = false ->
  Utils.RiskCalculator._calculate_history_score p = Raise OverflowError.
Proof.
  unfold ratio_fits, Utils.RiskCalculator._calculate_history_score.
  intros Hfit.
  destruct (get (total_cases p) 0 =? 0) eqn:E0; [discriminate Hfit|].
  destruct (get (criminal_count p) 0 >? 0) eqn:Ec; [|discriminate Hfit].
  cbn [orb negb] in Hfit. unfold Qltb in Hfit.
  unfold truediv. rewrite E0. cbv zeta.
  destruct (Qle_bool float_overflow _); [reflexivity | discriminate Hfit].
Qed.

Lemma risk_score_overflow (p : person_data) :
  ratio_fits p = false ->
  Utils.RiskCalculator.calculate_risk_score p = Raise OverflowError.
Proof.
  intros Hfit. unfold Utils.RiskCalculator.calculate_risk_score.
  rewrite (history_score_overflow p Hfit). reflexivity.
Qed.

(** No more criminal cases than cases in all: the quotient is at most 1. *)
Lemma ratio_fits_le (p : person_data) :
  get (criminal_count p) 0 <= get (total_cases p) 0 ->
  ratio_fits p = true.
Proof.
  intros Hle. unfold ratio_fits.
  destruct (get (total_cases p) 0 =? 0) eqn:E0; [reflexivity|].
  destruct (get (criminal_count p) 0 >? 0) eqn:Ec; [|reflexivity].
  cbn [orb negb]. apply Z.gtb_lt in Ec.
  apply Qltb_lt.
  apply Z.eqb_neq in E0.
  set (c := get (criminal_count p) 0) in *.
  set (t := get (total_cases p) 0) in *.
  assert (Hq : (0 <= inject_Z c / inject_Z t <= 1)%Q).
  { split.
    - apply ratio_nonneg; lia.
    - apply Qle_shift_div_r.
      + change 0%Q with (inject_Z 0). rewrite <- Zlt_Qlt. lia.
      + rewrite Qmult_1_l. rewrite <- Zle_Qle. exact Hle. }
  rewrite Qabs_pos by apply Hq.
  eapply Qle_lt_trans; [apply Hq|]. reflexivity.
Qed.

Lemma Qeq_within_tolerance (a b : Q) :
  (a == b)%Q -> (Qabs (a - b) < 0.001)%Q.
Proof.
  intros H. setoid_replace (a - b)%Q with 0%Q by (rewrite H; ring).
  reflexivity.
Qed.

Lemma risk_score_closed (p : person_data) (h : Q) :
  Utils.RiskCalculator._calculate_history_score p = Ok h ->
  Utils.RiskCalculator.calculate_risk_score p
  = Ok (Py.max 0 (Py.min 10 (Py.sum (dict_values (components_of p h)))),
        components_of p h).
Proof.
  intros Hh. unfold Utils.RiskCalculator.calculate_risk_score.
  rewrite Hh. reflexivity.
Qed.

Ltac split_ifs :=
  repeat match goal with
    | |- context [if ?c then _ else _] => destruct c
    end.

Lemma time_score_bounds (p : person_data) :
  2 <= Utils.RiskCalculator._calculate_time_score p <= 10.
Proof.
  unfold Utils.RiskCalculator._calculate_time_score. split_ifs; lia.
Qed.

Lemma age_score_bounds (p : person_data) :
  2 <= Utils.RiskCalculator._calculate_age_score p <= 10.
Proof.
  unfold Utils.RiskCalculator._calculate_age_score. split_ifs; lia.
Qed.

Lemma social_score_bounds (p : person_data) :
  0 <= Utils.RiskCalculator._calculate_social_score p <= 9.
Proof.
  unfold Utils.RiskCalculator._calculate_social_score.
  destruct (get (has_property p) 0 =? 1) eqn:E1;
  destruct (get (has_property p) 0 =? 0) eqn:E2;
  destruct (get (has_job p) 0 =? 1) eqn:E3;
  destruct (get (has_job p) 0 =? 0) eqn:E4;
  destruct (get (has_family p) 0 =? 1);
  destruct (get (substance_abuse p) 0 =? 1); lia.
Qed.

Lemma escalation_score_bounds (p : person_data) :
  2 <= Utils.RiskCalculator._calculate_escalation_score p <= 9.
Proof.
  unfold Utils.RiskCalculator._calculate_escalation_score. split_ifs; lia.
Qed.

Lemma pattern_risk_bounds (s : string) :
  (0.3 <= get (dict_get Utils.RiskCalculator.pattern_risks s) 0.5 <= 0.9)%Q.
Proof.
  unfold Utils.RiskCalculator.pattern_risks. cbn [dict_get].
  split_ifs; cbn [get]; lra.
Qed.

Lemma inject_Z_bounds (lo hi z : Z) :
  lo <= z <= hi -> (inject_Z lo <= inject_Z z <= inject_Z hi)%Q.
Proof.
  intros [H1 H2]. split; rewrite <- Zle_Qle; assumption.
Qed.

(** Every component within its range, and with them the sum. *)
Lemma components_bounds (p : person_data) (h : Q) :
  (0 <= h <= 10)%Q ->
  exists cp ch ct ca cs ce,
    components_of p h
    = [("pattern", cp); ("history", ch); ("time", ct); ("age", ca);
       ("social", cs); ("escalation", ce)]
    /\ (0.75 <= cp <= 2.25)%Q /\ (0 <= ch <= 2.0)%Q
    /\ (0.3 <= ct <= 1.5)%Q /\ (0.2 <= ca <= 1.0)%Q
    /\ (0 <= cs <= 1.35)%Q /\ (0.3 <= ce <= 1.35)%Q
    /\ (Py.sum (dict_values (components_of p h))
        == cp + ch + ct + ca + cs + ce)%Q.
Proof.
  intros Hh. unfold components_of.
  do 6 eexists. split; [reflexivity|].
  pose proof (pattern_risk_bounds (get (pattern_type p) "unknown")).
  pose proof (inject_Z_bounds _ _ _ (time_score_bounds p)) as Ht.
  pose proof (inject_Z_bounds _ _ _ (age_score_bounds p)) as Ha.
  pose proof (inject_Z_bounds _ _ _ (social_score_bounds p)) as Hs.
  pose proof (inject_Z_bounds _ _ _ (escalation_score_bounds p)) as He.
  change (inject_Z 2) with 2%Q in *. change (inject_Z 10) with 10%Q in *.
  change (inject_Z 0) with 0%Q in *. change (inject_Z 9) with 9%Q in *.
  repeat split; try lra.
  unfold Py.sum, dict_values. cbn [map snd fold_left]. lra.
Qed.

Lemma result_Z_eqb_eq (r : result Z) (z : Z) :
  result_Z_eqb r z = true -> r = Ok z.
Proof.
  destruct r as [z'|e]; cbn; [|discriminate].
  intros H. apply Z.eqb_eq in H. congruence.
Qed.

(** ** Case analysis on the pattern name *)

Lemma pattern_cases (s : string) :
  s = "mixed_unstable" \/ s = "chronic_criminal" \/ s = "escalating"
  \/ s = "deescalating" \/ s = "single" \/ s = "unknown"
  \/ (String.eqb s "mixed_unstable" = false
      /\ String.eqb s "chronic_criminal" = false
      /\ String.eqb s "escalating" = false
      /\ String.eqb s "deescalating" = false
      /\ String.eqb s "single" = false
      /\ String.eqb s "unknown" = false).
Proof.
  destruct (String.eqb_spec s "mixed_unstable"); [tauto|].
  destruct (String.eqb_spec s "chronic_criminal"); [tauto|].
  destruct (String.eqb_spec s "escalating"); [tauto|].
  destruct (String.eqb_spec s "deescalating"); [tauto|].
  destruct (String.eqb_spec s "single"); [tauto|].
  destruct (String.eqb_spec s "unknown"); [tauto|].
  repeat right. repeat split; reflexivity.
Qed.

Ltac pattern_analysis s :=
  let H := fresh "H" in
  destruct (pattern_cases s)
    as [->|[->|[->|[->|[->|[->|(H & ? & ? & ? & ? & ?)]]]]]].

Ltac pattern_other s :=
  cbn [dict_get andb];
  repeat match goal with
    | E : String.eqb s _ = false |- _ => rewrite !E; clear E
    end.

Ltac in_list := cbn [In]; repeat (first [left; reflexivity | right]).

Lemma age_modifier_cases (p : person_data) :
  In (Utils.CrimeForecaster._get_age_modifier p, Spec.age_modifier p)
    age_modifiers.
Proof.
  unfold Utils.CrimeForecaster._get_age_modifier, Spec.age_modifier,
    age_modifiers.
  destruct (get (current_age p) 35 <? 25); [in_list|].
  destruct (get (current_age p) 35 <? 35); [in_list|].
  destruct (get (current_age p) 35 <? 45); in_list.
Qed.

Lemma pattern_modifier_cases (p : person_data) (c : string) :
  In (Utils.CrimeForecaster._get_pattern_modifier p c,
      Spec.pattern_modifier p c) pattern_modifiers.
Proof.
  unfold Utils.CrimeForecaster._get_pattern_modifier, Spec.pattern_modifier,
    Spec.pattern_base, pattern_modifiers, Spec.Theft, Spec.Robbery,
    Spec.Armed_robbery, Spec.Murder.
  generalize (get (pattern_type p) "unknown"). intros s.
  pattern_analysis s; try pattern_other s; try solve [in_list].
  - destruct (str_in c ["Кража"; "Грабеж"]); in_list.
  - destruct (str_in c ["Разбой"; "Убийство"]); in_list.
Qed.

Lemma social_modifier_cases (p : person_data) :
  In (Utils.CrimeForecaster._get_social_modifier p, Spec.social_modifier p)
    social_modifiers.
Proof.
  unfold Utils.CrimeForecaster._get_social_modifier, Spec.social_modifier.
  destruct (get (has_property p) 0 =? 0);
    destruct (get (has_job p) 0 =? 0);
    destruct (get (substance_abuse p) 0 =? 1); in_list.
Qed.

Lemma days_agree_all :
  forallb days_agree
    (list_prod (dict_values Utils.CrimeForecaster.base_windows)
       (list_prod age_modifiers (list_prod pattern_modifiers social_modifiers)))
  = true.
Proof. vm_compute. reflexivity. Qed.

(** The body of the [try] block does not raise for a window of the table:
    it returns the integer part of the exact product, clamped. *)
Lemma forecast_days_body_closed (p : person_data) (c : string) (b : Z) :
  In (c, b) Utils.CrimeForecaster.base_windows ->
  forecast_days_body b (Utils.CrimeForecaster._get_age_modifier p)
    (Utils.CrimeForecaster._get_pattern_modifier p c)
    (Utils.CrimeForecaster._get_social_modifier p)
  = Ok (Spec.days_truncated p c b).
Proof.
  intros Hin. apply result_Z_eqb_eq.
  pose proof days_agree_all as Hall. rewrite forallb_forall in Hall.
  apply (Hall (b, ((_, Spec.age_modifier p),
                   ((_, Spec.pattern_modifier p c),
                    (_, Spec.social_modifier p))))).
  repeat apply in_prod.
  - apply (in_map snd) in Hin. exact Hin.
  - apply age_modifier_cases.
  - apply pattern_modifier_cases.
  - apply social_modifier_cases.
Qed.

Lemma forecast_days_closed (p : person_data) (c : string) (b : Z) :
  In (c, b) Utils.CrimeForecaster.base_windows ->
  forecast_days_of b (Utils.CrimeForecaster._get_age_modifier p)
    (Utils.CrimeForecaster._get_pattern_modifier p c)
    (Utils.CrimeForecaster._get_social_modifier p)
  = Ok (Spec.days_truncated p c b).
Proof.
  intros Hin. unfold forecast_days_of.
  rewrite (forecast_days_body_closed p c b Hin). reflexivity.
Qed.

Lemma forecast_days_range_spec (d : Z) :
  30 <= d <= 365 -> In d forecast_days_range.
Proof.
  intros H. unfold forecast_days_range. apply in_map_iff.
  exists (Z.to_nat (d - 30)). split; [lia|]. apply in_seq. lia.
Qed.

Lemma ci_agree_all : forallb ci_agree forecast_days_range = true.
Proof. vm_compute. reflexivity. Qed.

Lemma ci_closed (d : Z) :
  30 <= d <= 365 ->
  ci_lower_of d
  = Ok (fst (Spec.ci_truncated d) - short_by ci_lower_short d)
  /\ ci_upper_of d
     = Ok (snd (Spec.ci_truncated d) - short_by ci_upper_short d)
  /\ fst (Spec.ci_truncated d) < d
  /\ d + 1 < snd (Spec.ci_truncated d)
  /\ (d mod 10 <> 0 -> short_by ci_lower_short d = 0)
  /\ (d mod 5 <> 0 -> short_by ci_upper_short d = 0).
Proof.
  intros H. apply forecast_days_range_spec in H.
  pose proof ci_agree_all as Hall. rewrite forallb_forall in Hall.
  specialize (Hall d H). unfold ci_agree in Hall.
  repeat (apply andb_prop in Hall; destruct Hall as [Hall ?]).
  repeat split.
  - apply result_Z_eqb_eq. assumption.
  - apply result_Z_eqb_eq. assumption.
  - apply Z.ltb_lt. assumption.
  - apply Z.ltb_lt. assumption.
  - intros Hm. match goal with
      | E : (d mod 10 =? 0) || _ = true |- _ =>
          apply orb_prop in E; destruct E as [E|E];
          [apply Z.eqb_eq in E; contradiction | apply Z.eqb_eq in E; exact E]
      end.
  - intros Hm. match goal with
      | E : (d mod 5 =? 0) || _ = true |- _ =>
          apply orb_prop in E; destruct E as [E|E];
          [apply Z.eqb_eq in E; contradiction | apply Z.eqb_eq in E; exact E]
      end.
Qed.

Lemma short_by_range (l : list Z) (d : Z) : 0 <= short_by l d <= 1.
Proof. unfold short_by. destruct (existsb _ _); lia. Qed.

Lemma days_truncated_range (p : person_data) (c : string) (b : Z) :
  30 <= Spec.days_truncated p c b <= 365.
Proof. unfold Spec.days_truncated, Spec.clampZ. lia. Qed.

(** ** The crime probability *)

Lemma Qltb_compat (x y y' : Q) : (y == y')%Q -> Qltb x y = Qltb x y'.
Proof. intros H. unfold Qltb. rewrite H. reflexivity. Qed.

Lemma Zltb_Qltb (a b : Z) : (a <? b) = Qltb (inject_Z a) (inject_Z b).
Proof.
  destruct (a <? b) eqn:E; symmetry.
  - apply Qltb_lt. rewrite <- Zlt_Qlt. apply Z.ltb_lt. exact E.
  - apply Qltb_ge. rewrite <- Zle_Qle. apply Z.ltb_ge. exact E.
Qed.

Ltac key_analysis k :=
  cbn [dict_get];
  repeat match goal with
    | |- context [String.eqb k ?x] =>
        destruct (String.eqb_spec k x) as [->|?]; [reflexivity|]
    end;
  reflexivity.

Lemma time_windows_agree (k : string) :
  dict_get utils_time_windows k = dict_get Constants.CRIME_TIME_WINDOWS k.
Proof.
  unfold utils_time_windows, Constants.CRIME_TIME_WINDOWS. key_analysis k.
Qed.

Lemma base_probabilities_agree (k : string) :
  dict_get utils_base_probabilities k = dict_get Constants.PREVENTION_RATES k.
Proof.
  unfold utils_base_probabilities, Constants.PREVENTION_RATES. key_analysis k.
Qed.

Lemma crime_probability_copies (p : person_data) (c : string) (d : Z) :
  Backend.RiskCalculator.calculate_crime_probability p c d
  = Utils.RiskCalculator.calculate_crime_probability p c d.
Proof.
  unfold Backend.RiskCalculator.calculate_crime_probability,
    Utils.RiskCalculator.calculate_crime_probability.
  cbv zeta.
  fold utils_time_windows utils_base_probabilities.
  rewrite time_windows_agree, base_probabilities_agree.
  reflexivity.
Qed.

Lemma time_modifier_spec (d B : Z) :
  (if Qltb (inject_Z d) (inject_Z B * 0.5) then 0.6%Q
   else if d <? B then 0.8%Q
   else if Qltb (inject_Z d) (inject_Z B * 1.5) then 1.0%Q
   else 0.7%Q)
  = Spec.time_modifier d B.
Proof.
  unfold Spec.time_modifier.
  rewrite (Qltb_compat _ (inject_Z B * 0.5) (0.5 * inject_Z B))
    by apply Qmult_comm.
  rewrite (Qltb_compat _ (inject_Z B * 1.5) (1.5 * inject_Z B))
    by apply Qmult_comm.
  rewrite Zltb_Qltb. reflexivity.
Qed.

Lemma crime_probability_closed (p : person_data) (c : string) (d B : Z)
    (rate r : Q) (comps : dict Q) :
  dict_get Constants.CRIME_TIME_WINDOWS c = Some B ->
  dict_get Constants.PREVENTION_RATES c = Some rate ->
  Utils.RiskCalculator.calculate_risk_score p = Ok (r, comps) ->
  Utils.RiskCalculator.calculate_crime_probability p c d
  = Ok (Py.max 5
          (Py.min 95
             (rate * (r / 10) * Spec.time_modifier d B
              * Spec.probability_pattern_modifier p c)%Q)).
Proof.
  intros HB Hrate Hr.
  unfold Utils.RiskCalculator.calculate_crime_probability.
  cbv zeta. fold utils_time_windows utils_base_probabilities.
  rewrite time_windows_agree, base_probabilities_agree, HB, Hrate, Hr.
  cbn [bind get]. rewrite time_modifier_spec. reflexivity.
Qed.

(** ** [sorted] and [dict] *)

Section Sorting.

Context {A : Type} (key : A -> Z).

Let le (a b : A) : Prop := key a <= key b.

Lemma insert_by_perm (x : A) (l : list A) :
  Permutation (insert_by key x l) (x :: l).
Proof.
  induction l as [|y ys IH]; cbn; [reflexivity|].
  destruct (key y <=? key x).
  - rewrite IH. apply perm_swap.
  - reflexivity.
Qed.

Lemma sorted_fold_perm (xs acc : list A) :
  Permutation (fold_left (fun acc x => insert_by key x acc) xs acc)
    (acc ++ xs)%list.
Proof.
  revert acc. induction xs as [|x xs IH]; intros acc; cbn.
  - rewrite app_nil_r. reflexivity.
  - rewrite IH, insert_by_perm. apply Permutation_middle.
Qed.

Lemma sorted_perm (xs : list A) : Permutation (sorted xs key) xs.
Proof. apply (sorted_fold_perm xs []). Qed.

Lemma insert_by_sorted (x : A) (l : list A) :
  StronglySorted le l -> StronglySorted le (insert_by key x l).
Proof.
  induction 1 as [|y ys Hs IH Hy]; cbn.
  - repeat constructor.
  - destruct (key y <=? key x) eqn:E.
    + constructor; [exact IH|].
      apply (Permutation_Forall (Permutation_sym (insert_by_perm x ys))).
      constructor; [apply Z.leb_le; exact E | exact Hy].
    + apply Z.leb_gt in E. constructor; [constructor; assumption|].
      constructor; [unfold le; lia|].
      eapply Forall_impl; [|exact Hy]. unfold le. intros; lia.
Qed.

Lemma sorted_fold_sorted (xs acc : list A) :
  StronglySorted le acc ->
  StronglySorted le (fold_left (fun acc x => insert_by key x acc) xs acc).
Proof.
  revert acc. induction xs as [|x xs IH]; intros acc H; cbn; [exact H|].
  apply IH, insert_by_sorted, H.
Qed.

Lemma sorted_ascending (xs : list A) :
  StronglySorted (fun a b => key a <= key b) (sorted xs key).
Proof. apply sorted_fold_sorted. constructor. Qed.

End Sorting.

Lemma insert_by_map {A} (key : A -> Z) (g : A -> A) (x : A) (l : list A) :
  (forall a, key (g a) = key a) ->
  map g (insert_by key x l) = insert_by key (g x) (map g l).
Proof.
  intros Hg. induction l as [|y ys IH]; cbn; [reflexivity|].
  rewrite !Hg. destruct (key y <=? key x); cbn; [rewrite IH|]; reflexivity.
Qed.

Lemma sorted_fold_map {A} (key : A -> Z) (g : A -> A) (xs acc : list A) :
  (forall a, key (g a) = key a) ->
  map g (fold_left (fun acc x => insert_by key x acc) xs acc)
  = fold_left (fun acc x => insert_by key x acc) (map g xs) (map g acc).
Proof.
  intros Hg. revert acc.
  induction xs as [|x xs IH]; intros acc; cbn; [reflexivity|].
  rewrite <- insert_by_map by exact Hg. apply IH.
Qed.

Lemma sorted_map {A} (key : A -> Z) (g : A -> A) (xs : list A) :
  (forall a, key (g a) = key a) ->
  map g (sorted xs key) = sorted (map g xs) key.
Proof. intros Hg. apply (sorted_fold_map key g xs [] Hg). Qed.

(** [dict(items)] keeps a list of items whose keys are distinct. *)
Lemma dict_set_fresh {V} (d : dict V) (k : string) (v : V) :
  ~ In k (dict_keys d) -> dict_set d k v = (d ++ [(k, v)])%list.
Proof.
  induction d as [|[k' v'] d IH]; cbn; intros H; [reflexivity|].
  destruct (String.eqb_spec k k') as [->|Hne]; [tauto|].
  rewrite IH by tauto. reflexivity.
Qed.

Lemma dict_of_items_fold {V} (items acc : dict V) :
  NoDup (dict_keys (acc ++ items)%list) ->
  fold_left (fun d kv => dict_set d (fst kv) (snd kv)) items acc
  = (acc ++ items)%list.
Proof.
  revert acc. induction items as [|[k v] items IH]; intros acc H; cbn.
  - rewrite app_nil_r. reflexivity.
  - assert (Hk : ~ In k (dict_keys acc)).
    { unfold dict_keys in *. rewrite map_app in H. cbn in H.
      apply NoDup_remove_2 in H. rewrite in_app_iff in H. tauto. }
    rewrite dict_set_fresh by exact Hk.
    rewrite IH; rewrite <- app_assoc; [reflexivity | exact H].
Qed.

Lemma dict_of_items_nodup {V} (items : dict V) :
  NoDup (dict_keys items) -> dict_of_items items = items.
Proof. intros H. apply (dict_of_items_fold items [] H). Qed.

(** ** The single forecast and the timeline *)

Lemma crime_probability_total (p : person_data) (c : string) (d : Z) :
  ratio_fits p = true ->
  exists pr,
    Utils.RiskCalculator.calculate_crime_probability p c d = Ok pr
    /\ (5 <= pr <= 95)%Q.
Proof.
  intros Hfit. destruct (history_score_ok p Hfit) as (h & Hh & _).
  unfold Utils.RiskCalculator.calculate_crime_probability. cbv zeta.
  rewrite (risk_score_closed p h Hh). cbn [bind].
  eexists. split; [reflexivity|]. apply py_clamp_bounds. lra.
Qed.

Lemma single_forecast_steps (now : Z) (p : person_data) (c : string)
    (b : Z) :
  Utils.CrimeForecaster._calculate_single_forecast now p c b
  = (forecast_days <-
       forecast_days_of b (Utils.CrimeForecaster._get_age_modifier p)
         (Utils.CrimeForecaster._get_pattern_modifier p c)
         (Utils.CrimeForecaster._get_social_modifier p) ;;
     ci_lower <- ci_lower_of forecast_days ;;
     ci_upper <- ci_upper_of forecast_days ;;
     probability <-
       Utils.RiskCalculator.calculate_crime_probability p c forecast_days ;;
     Ok {| crime_type := c;
           days := forecast_days;
           date := now + timedelta forecast_days;
           probability := probability;
           ci_lower := ci_lower;
           ci_upper := ci_upper;
           confidence := Utils.CrimeForecaster._calculate_confidence p c;
           risk_level :=
             Utils.CrimeForecaster._get_timeline_risk_level forecast_days |}).
Proof. reflexivity. Qed.

Lemma crime_probability_overflow (p : person_data) (c : string) (d : Z) :
  ratio_fits p = false ->
  Utils.RiskCalculator.calculate_crime_probability p c d
  = Raise OverflowError.
Proof.
  intros Hfit. unfold Utils.RiskCalculator.calculate_crime_probability.
  cbv zeta. rewrite (risk_score_overflow p Hfit). reflexivity.
Qed.

Lemma single_forecast_closed (now : Z) (p : person_data) (c : string)
    (b : Z) :
  ratio_fits p = true ->
  In (c, b) Utils.CrimeForecaster.base_windows ->
  Utils.CrimeForecaster._calculate_single_forecast now p c b
  = Ok (forecast_entry now p c b).
Proof.
  intros Hfit Hin. rewrite single_forecast_steps.
  rewrite (forecast_days_closed p c b Hin). cbn [bind].
  destruct (ci_closed _ (days_truncated_range p c b)) as (Hlo & Hhi & _).
  rewrite Hlo, Hhi. cbn [bind].
  destruct (crime_probability_total p c (Spec.days_truncated p c b) Hfit)
    as (pr & Hpr & _).
  unfold forecast_entry. rewrite Hpr. reflexivity.
Qed.

(** The days and the interval are computed first; the probability is what
    raises when the quotient does not fit. *)
Lemma single_forecast_overflow (now : Z) (p : person_data) (c : string)
    (b : Z) :
  ratio_fits p = false ->
  In (c, b) Utils.CrimeForecaster.base_windows ->
  Utils.CrimeForecaster._calculate_single_forecast now p c b
  = Raise OverflowError.
Proof.
  intros Hfit Hin. rewrite single_forecast_steps.
  rewrite (forecast_days_closed p c b Hin). cbn [bind].
  destruct (ci_closed _ (days_truncated_range p c b)) as (Hlo & Hhi & _).
  rewrite Hlo, Hhi. cbn [bind].
  rewrite (crime_probability_overflow p c _ Hfit). reflexivity.
Qed.

Lemma forecast_loop_closed (clock : nat -> Z) (p : person_data) :
  ratio_fits p = true ->
  Utils.CrimeForecaster.forecast_loop clock p
    (dict_items Utils.CrimeForecaster.base_windows) 0%nat []
  = Ok (unsorted_timeline clock p).
Proof.
  intros Hfit.
  unfold unsorted_timeline, dict_items, Utils.CrimeForecaster.base_windows.
  cbn [Utils.CrimeForecaster.forecast_loop].
  repeat (rewrite single_forecast_closed
            by (first [exact Hfit
                      | unfold Utils.CrimeForecaster.base_windows; in_list]);
          cbn [bind]).
  cbv -[forecast_entry]. reflexivity.
Qed.

Lemma base_windows_nodup : NoDup (dict_keys Constants.CRIME_TIME_WINDOWS).
Proof.
  unfold dict_keys, Constants.CRIME_TIME_WINDOWS. cbn [map fst].
  repeat (constructor; [cbn [In]; intros H;
    repeat (destruct H as [H|H]; [discriminate H|]); exact H|]).
  constructor.
Qed.

Lemma sorted_timeline_nodup (clock : nat -> Z) (p : person_data) :
  NoDup (dict_keys (sorted (unsorted_timeline clock p) days_key)).
Proof.
  unfold dict_keys.
  apply (Permutation_NoDup
           (Permutation_map fst
              (Permutation_sym (sorted_perm days_key (unsorted_timeline clock p))))).
  change (map fst (unsorted_timeline clock p))
    with (dict_keys Constants.CRIME_TIME_WINDOWS).
  apply base_windows_nodup.
Qed.

Lemma forecast_timeline_closed (clock : nat -> Z) (p : person_data) :
  ratio_fits p = true ->
  Utils.CrimeForecaster.forecast_crime_timeline clock p
  = Ok (sorted (unsorted_timeline clock p) days_key).
Proof.
  intros Hfit. unfold Utils.CrimeForecaster.forecast_crime_timeline.
  rewrite (forecast_loop_closed clock p Hfit). cbn [bind dict_items].
  change (fun x : string * forecast => days (snd x)) with days_key.
  rewrite dict_of_items_nodup by apply sorted_timeline_nodup.
  reflexivity.
Qed.

(** The first iteration of the loop already raises when the quotient does
    not fit. *)
Lemma forecast_timeline_overflow (clock : nat -> Z) (p : person_data) :
  ratio_fits p = false ->
  Utils.CrimeForecaster.forecast_crime_timeline clock p
  = Raise OverflowError.
Proof.
  intros Hfit. unfold Utils.CrimeForecaster.forecast_crime_timeline.
  unfold dict_items, Utils.CrimeForecaster.base_windows.
  cbn [Utils.CrimeForecaster.forecast_loop].
  rewrite single_forecast_overflow
    by (first [exact Hfit
              | unfold Utils.CrimeForecaster.base_windows; in_list]).
  reflexivity.
Qed.

(** Every entry of the timeline is the entry of one window of the table. *)
Lemma timeline_entries (clock : nat -> Z) (p : person_data) (k : string)
    (f : forecast) :
  In (k, f) (sorted (unsorted_timeline clock p) days_key) ->
  exists now b,
    In (k, b) Constants.CRIME_TIME_WINDOWS /\ f = forecast_entry now p k b.
Proof.
  intros H.
  apply (Permutation_in _ (sorted_perm days_key (unsorted_timeline clock p)))
    in H.
  unfold unsorted_timeline in H. apply in_map_iff in H.
  destruct H as ([i [c b]] & E & Hin). injection E as <- <-.
  apply in_combine_r in Hin. exists (clock i), b. split; [exact Hin|reflexivity].
Qed.

(** ** The two copies *)

Lemma risk_score_copies (p : person_data) :
  Backend.RiskCalculator.calculate_risk_score p
  = Utils.RiskCalculator.calculate_risk_score p.
Proof. reflexivity. Qed.

Lemma risk_level_copies (r : Q) :
  Backend.RiskCalculator.get_risk_level r
  = Utils.RiskCalculator.get_risk_level r.
Proof. reflexivity. Qed.

Lemma backend_single_forecast_steps (now : Z) (p : person_data) (c : string)
    (b : Z) :
  Backend.CrimeForecaster._calculate_single_forecast now p c b
  = (forecast_days <-
       forecast_days_of b (Utils.CrimeForecaster._get_age_modifier p)
         (Utils.CrimeForecaster._get_pattern_modifier p c)
         (Utils.CrimeForecaster._get_social_modifier p) ;;
     ci_lower <- ci_lower_of forecast_days ;;
     ci_upper <- ci_upper_of forecast_days ;;
     probability <-
       Backend.RiskCalculator.calculate_crime_probability p c forecast_days ;;
     Ok {| crime_type := c;
           days := forecast_days;
           date := now + timedelta forecast_days;
           probability := probability;
           ci_lower := ci_lower;
           ci_upper := ci_upper;
           confidence := Utils.CrimeForecaster._calculate_confidence p c;
           risk_level :=
             Utils.CrimeForecaster._get_timeline_risk_level forecast_days |}).
Proof. reflexivity. Qed.

Lemma single_forecast_copies (now : Z) (p : person_data) (c : string)
    (b : Z) :
  Backend.CrimeForecaster._calculate_single_forecast now p c b
  = Utils.CrimeForecaster._calculate_single_forecast now p c b.
Proof.
  rewrite backend_single_forecast_steps, single_forecast_steps.
  destruct (forecast_days_of _ _ _ _) as [d|e]; cbn [bind]; [|reflexivity].
  destruct (ci_lower_of d) as [lo|e]; cbn [bind]; [|reflexivity].
  destruct (ci_upper_of d) as [hi|e]; cbn [bind]; [|reflexivity].
  rewrite crime_probability_copies. reflexivity.
Qed.

Lemma forecast_loop_copies (clock : nat -> Z) (p : person_data)
    (items : list (string * Z)) (i : nat) (acc : dict forecast) :
  Backend.CrimeForecaster.forecast_loop clock p items i acc
  = Utils.CrimeForecaster.forecast_loop clock p items i acc.
Proof.
  revert i acc. induction items as [|[c b] items IH]; intros i acc; cbn.
  - reflexivity.
  - rewrite single_forecast_copies.
    destruct (Utils.CrimeForecaster._calculate_single_forecast _ _ _ _);
      cbn [bind]; [apply IH | reflexivity].
Qed.

Lemma forecast_timeline_copies (clock : nat -> Z) (p : person_data) :
  Backend.CrimeForecaster.forecast_crime_timeline clock p
  = Utils.CrimeForecaster.forecast_crime_timeline clock p.
Proof.
  unfold Backend.CrimeForecaster.forecast_crime_timeline,
    Utils.CrimeForecaster.forecast_crime_timeline.
  rewrite forecast_loop_copies. reflexivity.
Qed.

Lemma undated_timeline (clock clock' : nat -> Z) (p : person_data) :
  undated_items (sorted (unsorted_timeline clock p) days_key)
  = undated_items (sorted (unsorted_timeline clock' p) days_key).
Proof.
  unfold undated_items.
  rewrite !sorted_map by reflexivity. reflexivity.
Qed.

(** Properties of one entry. *)
Lemma forecast_entry_facts (now : Z) (p : person_data) (k : string) (b : Z) :
  ratio_fits p = true ->
  let f := forecast_entry now p k b in
  days f = Spec.days_truncated p k b
  /\ 30 <= days f <= 365
  /\ fst (Spec.ci_truncated (days f)) - 1 <= ci_lower f
     <= fst (Spec.ci_truncated (days f))
  /\ snd (Spec.ci_truncated (days f)) - 1 <= ci_upper f
     <= snd (Spec.ci_truncated (days f))
  /\ (days f mod 10 = 0 \/ ci_lower f = fst (Spec.ci_truncated (days f)))
  /\ (days f mod 5 = 0 \/ ci_upper f = snd (Spec.ci_truncated (days f)))
  /\ ci_lower f < days f < ci_upper f
  /\ Utils.RiskCalculator.calculate_crime_probability p k (days f)
     = Ok (probability f)
  /\ (5 <= probability f <= 95)%Q.
Proof.
  intros Hfit.
  cbn zeta. unfold forecast_entry. cbn [days ci_lower ci_upper probability].
  pose proof (days_truncated_range p k b) as Hr.
  destruct (ci_closed _ Hr) as (_ & _ & Hlo & Hhi & Hl10 & Hu5).
  pose proof (short_by_range ci_lower_short (Spec.days_truncated p k b)).
  pose proof (short_by_range ci_upper_short (Spec.days_truncated p k b)).
  destruct (crime_probability_total p k (Spec.days_truncated p k b) Hfit)
    as (pr & Hpr & Hb).
  rewrite Hpr. cbn [unwrap].
  repeat split; try lia; apply Hb.
Qed.

(** A property of every entry of the table's forecasts holds of every
    entry of the timeline. *)
Lemma timeline_Forall (P : string * forecast -> Prop) (clock : nat -> Z)
    (p : person_data) :
  (forall now k b,
      In (k, b) Constants.CRIME_TIME_WINDOWS ->
      P (k, forecast_entry now p k b)) ->
  Forall P (sorted (unsorted_timeline clock p) days_key).
Proof.
  intros H. apply Forall_forall. intros [k f] Hin.
  destruct (timeline_entries clock p k f Hin) as (now & b & Hb & ->).
  apply H. exact Hb.
Qed.

Lemma in_domain_total_cases (p : person_data) :
  Spec.in_domain p -> 0 <= get (total_cases p) 0.
Proof.
  unfold Spec.in_domain, Spec.in_domainb. intros H.
  repeat (apply andb_prop in H; destruct H as [H ?]).
  apply Z.leb_le. assumption.
Qed.

(** * The claims *)

(** C2: on the example record of section 8, [calculate_risk_score] returns
    a score within 1e-3 of 5.760, and [get_risk_level] maps that score to
    the "High" level with its recommendation. *)
Theorem example_score_and_level :
  exists risk_score components,
    Utils.RiskCalculator.calculate_risk_score example_record
      = Ok (risk_score, components)
    /\ (Qabs (risk_score - 5.760) < 0.001)%Q
    /\ Utils.RiskCalculator.get_risk_level risk_score
       = ("🟡 Высокий", "Усиленный контроль и мониторинг").
Proof.
  eexists. eexists. split; [vm_compute; reflexivity|].
  split; vm_compute; reflexivity.
Qed.

(** C3: for every record on which [calculate_risk_score] returns, that is
    whose quotient [criminal_count / total_cases] is within the float
    range, the score it returns is the sum of the six weighted components
    it also returns, clamped to [0, 10] (exactly, hence within 1e-3), and
    lies between 0 and 10.  The sign of the fields does not matter. *)
Theorem risk_score_is_clamped_sum (p : person_data) :
  ratio_fits p = true ->
  exists risk_score cp ch ct ca cs ce,
    Utils.RiskCalculator.calculate_risk_score p
    = Ok (risk_score,
          [("pattern", cp); ("history", ch); ("time", ct); ("age", ca);
           ("social", cs); ("escalation", ce)])
    /\ (risk_score == Spec.clamp (cp + ch + ct + ca + cs + ce) 0 10)%Q
    /\ (Qabs (risk_score - Spec.clamp (cp + ch + ct + ca + cs + ce) 0 10)
        < 0.001)%Q
    /\ (0 <= risk_score <= 10)%Q.
Proof.
  intros Hfit. destruct (history_score_ok p Hfit) as (h & Hh & _).
  do 7 eexists. split; [apply (risk_score_closed p h Hh)|].
  assert (E : (Py.max 0 (Py.min 10 (Py.sum (dict_values (components_of p h))))
               == Spec.clamp
                    (get (dict_get Utils.RiskCalculator.pattern_risks
                            (get (pattern_type p) "unknown")) 0.5 * 10 * 0.25
                     + h * 0.20
                     + inject_Z (Utils.RiskCalculator._calculate_time_score p) * 0.15
                     + inject_Z (Utils.RiskCalculator._calculate_age_score p) * 0.10
                     + inject_Z (Utils.RiskCalculator._calculate_social_score p) * 0.15
                     + inject_Z (Utils.RiskCalculator._calculate_escalation_score p) * 0.15)
                    0 10)%Q).
  { rewrite py_clamp_spec. unfold Spec.clamp.
    apply Q.max_compat; [reflexivity|]. apply Q.min_compat; [reflexivity|].
    unfold Py.sum, dict_values, components_of. cbn [map snd fold_left]. lra. }
  split; [exact E|]. split.
  - apply Qeq_within_tolerance. exact E.
  - apply py_clamp_bounds. lra.
Qed.

Lemma risk_score_is_clamped_sum_witness :
  ratio_fits example_record = true
  /\ exists risk_score cp ch ct ca cs ce,
       Utils.RiskCalculator.calculate_risk_score example_record
       = Ok (risk_score,
             [("pattern", cp); ("history", ch); ("time", ct); ("age", ca);
              ("social", cs); ("escalation", ce)])
       /\ (risk_score == Spec.clamp (cp + ch + ct + ca + cs + ce) 0 10)%Q
       /\ (Qabs (risk_score - Spec.clamp (cp + ch + ct + ca + cs + ce) 0 10)
           < 0.001)%Q
       /\ (0 <= risk_score <= 10)%Q.
Proof.
  split; [reflexivity|].
  apply (risk_score_is_clamped_sum example_record). reflexivity.
Defined.

(** C4, as stated, fails: [overflow_record] lies in the domain of
    section 3 (one case in all, [10 ** 400] criminal cases), the division
    of the history score raises [OverflowError] on it, and so does
    [calculate_risk_score], in both copies. *)
Lemma risk_score_not_total :
  Spec.in_domain overflow_record
  /\ Utils.RiskCalculator._calculate_history_score overflow_record
     = Raise OverflowError
  /\ Utils.RiskCalculator.calculate_risk_score overflow_record
     = Raise OverflowError
  /\ Backend.RiskCalculator.calculate_risk_score overflow_record
     = Raise OverflowError.
Proof. repeat split; vm_compute; reflexivity. Qed.

(** C4, amended: the history score and [calculate_risk_score] return
    exactly when the quotient [criminal_count / total_cases] is not
    computed or is within the float range, which is so whenever
    [criminal_count <= total_cases]; otherwise they raise [OverflowError]
    and nothing else.  With [total_cases == 0] the history score returns 0
    before the division.  (The other five sub-scores are functions into
    the integers with an [else] branch at every step.) *)
Theorem risk_score_total (p : person_data) :
  (ratio_fits p = true ->
   (exists h, Utils.RiskCalculator._calculate_history_score p = Ok h)
   /\ (exists risk_score components,
         Utils.RiskCalculator.calculate_risk_score p
         = Ok (risk_score, components)))
  /\ (ratio_fits p = false ->
      Utils.RiskCalculator._calculate_history_score p = Raise OverflowError
      /\ Utils.RiskCalculator.calculate_risk_score p = Raise OverflowError)
  /\ (get (criminal_count p) 0 <= get (total_cases p) 0 ->
      ratio_fits p = true)
  /\ (get (total_cases p) 0 = 0 ->
      Utils.RiskCalculator._calculate_history_score p = Ok 0%Q).
Proof.
  split; [|split; [|split]].
  - intros Hfit. destruct (history_score_ok p Hfit) as (h & Hh & _).
    split; [exists h; exact Hh|].
    do 2 eexists; apply (risk_score_closed p h Hh).
  - intros Hfit.
    split; [apply history_score_overflow | apply risk_score_overflow];
      exact Hfit.
  - apply ratio_fits_le.
  - intros H0. unfold Utils.RiskCalculator._calculate_history_score.
    rewrite H0. reflexivity.
Qed.

Lemma risk_score_total_witness :
  (ratio_fits example_record = true
   /\ (exists h,
         Utils.RiskCalculator._calculate_history_score example_record = Ok h)
   /\ (exists risk_score components,
         Utils.RiskCalculator.calculate_risk_score example_record
         = Ok (risk_score, components)))
  /\ (ratio_fits overflow_record = false
      /\ Utils.RiskCalculator.calculate_risk_score overflow_record
         = Raise OverflowError)
  /\ (get (total_cases empty_record) 0 = 0
      /\ Utils.RiskCalculator._calculate_history_score empty_record
         = Ok 0%Q).
Proof.
  split; [|split].
  - split; [reflexivity|].
    apply (proj1 (risk_score_total example_record)). reflexivity.
  - split; [reflexivity|].
    apply (proj1 (proj2 (risk_score_total overflow_record))). reflexivity.
  - split; [reflexivity|].
    apply (proj2 (proj2 (proj2 (risk_score_total empty_record)))).
    reflexivity.
Defined.

(** C10: on the domain of section 3, wherever [calculate_risk_score]
    returns (the quotient [criminal_count / total_cases] within the float
    range), every component lies in its range (pattern 0.75..2.25,
    history 0..2.0, time 0.3..1.5, age 0.2..1.0, social 0..1.35,
    escalation 0.3..1.35), their sum lies in [1.55, 9.45], the clamp to
    [0, 10] returns that sum unchanged, and the score is neither 0 nor
    10. *)
Theorem risk_score_never_clamped (p : person_data) :
  Spec.in_domain p ->
  ratio_fits p = true ->
  exists risk_score cp ch ct ca cs ce,
    Utils.RiskCalculator.calculate_risk_score p
    = Ok (risk_score,
          [("pattern", cp); ("history", ch); ("time", ct); ("age", ca);
           ("social", cs); ("escalation", ce)])
    /\ (0.75 <= cp <= 2.25)%Q /\ (0 <= ch <= 2.0)%Q
    /\ (0.3 <= ct <= 1.5)%Q /\ (0.2 <= ca <= 1.0)%Q
    /\ (0 <= cs <= 1.35)%Q /\ (0.3 <= ce <= 1.35)%Q
    /\ (1.55 <= cp + ch + ct + ca + cs + ce <= 9.45)%Q
    /\ (risk_score == cp + ch + ct + ca + cs + ce)%Q
    /\ (0 < risk_score < 10)%Q.
Proof.
  intros Hdom Hfit. apply in_domain_total_cases in Hdom.
  destruct (history_score_ok p Hfit) as (h & Hh & Hle & Hge).
  specialize (Hge Hdom).
  destruct (components_bounds p h (conj Hge Hle))
    as (cp & ch & ct & ca & cs & ce & Hc & Bp & Bh & Bt & Ba & Bs & Be & Hsum).
  exists (Py.max 0 (Py.min 10 (Py.sum (dict_values (components_of p h))))).
  exists cp, ch, ct, ca, cs, ce.
  split; [rewrite <- Hc; apply (risk_score_closed p h Hh)|].
  assert (Hr : (Py.max 0 (Py.min 10 (Py.sum (dict_values (components_of p h))))
                == cp + ch + ct + ca + cs + ce)%Q).
  { rewrite py_max_id.
    - rewrite py_min_id; [exact Hsum | rewrite Hsum; lra].
    - rewrite py_min_id; rewrite Hsum; lra. }
  do 7 (split; [lra|]).
  split; [exact Hr|].
  revert Hr.
  generalize (Py.max 0 (Py.min 10 (Py.sum (dict_values (components_of p h))))).
  intros r Hr. lra.
Qed.

Lemma risk_score_never_clamped_witness :
  exists risk_score cp ch ct ca cs ce,
    Utils.RiskCalculator.calculate_risk_score example_record
    = Ok (risk_score,
          [("pattern", cp); ("history", ch); ("time", ct); ("age", ca);
           ("social", cs); ("escalation", ce)])
    /\ (0.75 <= cp <= 2.25)%Q /\ (0 <= ch <= 2.0)%Q
    /\ (0.3 <= ct <= 1.5)%Q /\ (0.2 <= ca <= 1.0)%Q
    /\ (0 <= cs <= 1.35)%Q /\ (0.3 <= ce <= 1.35)%Q
    /\ (1.55 <= cp + ch + ct + ca + cs + ce <= 9.45)%Q
    /\ (risk_score == cp + ch + ct + ca + cs + ce)%Q
    /\ (0 < risk_score < 10)%Q.
Proof.
  apply (risk_score_never_clamped example_record); reflexivity.
Defined.

(** Both ends of the range of C10 are reached. *)
Example risk_score_highest :
  exists risk_score components,
    Utils.RiskCalculator.calculate_risk_score highest_record
    = Ok (risk_score, components)
    /\ (risk_score == 9.45)%Q /\ Spec.in_domain highest_record.
Proof.
  do 2 eexists. split; [vm_compute; reflexivity|].
  split; vm_compute; reflexivity.
Qed.

Example risk_score_lowest :
  exists risk_score components,
    Utils.RiskCalculator.calculate_risk_score lowest_record
    = Ok (risk_score, components)
    /\ (risk_score == 1.55)%Q /\ Spec.in_domain lowest_record.
Proof.
  do 2 eexists. split; [vm_compute; reflexivity|].
  split; vm_compute; reflexivity.
Qed.

(** C1: the ported copies in [risk_service.py] return what the originals
    in [risk_calculator.py] return: the same [(risk_score, components)],
    the same [(level, recommendation)], the same probability, and
    timelines that are equal, entry by entry and in the same order, in
    every field but the wall-clock [date] (the two clocks are
    unrelated).  "The same" includes the exception: where one copy raises,
    the other raises the same.  Where the quotient
    [criminal_count / total_cases] is within the float range both
    timelines are returned. *)
Theorem copies_agree :
  (forall p,
      Backend.RiskCalculator.calculate_risk_score p
      = Utils.RiskCalculator.calculate_risk_score p)
  /\ (forall risk_score,
         Backend.RiskCalculator.get_risk_level risk_score
         = Utils.RiskCalculator.get_risk_level risk_score)
  /\ (forall p crime days_ahead,
         Backend.RiskCalculator.calculate_crime_probability p crime days_ahead
         = Utils.RiskCalculator.calculate_crime_probability p crime
             days_ahead)
  /\ (forall clock clock' p,
         undated_result (Utils.CrimeForecaster.forecast_crime_timeline clock p)
         = undated_result
             (Backend.CrimeForecaster.forecast_crime_timeline clock' p))
  /\ (forall clock clock' p,
         ratio_fits p = true ->
         exists fs gs,
           Utils.CrimeForecaster.forecast_crime_timeline clock p = Ok fs
           /\ Backend.CrimeForecaster.forecast_crime_timeline clock' p = Ok gs
           /\ undated_items fs = undated_items gs).
Proof.
  split; [exact risk_score_copies|].
  split; [exact risk_level_copies|].
  split; [exact crime_probability_copies|].
  split.
  - intros clock clock' p. rewrite (forecast_timeline_copies clock' p).
    destruct (ratio_fits p) eqn:Hfit.
    + rewrite (forecast_timeline_closed clock p Hfit),
        (forecast_timeline_closed clock' p Hfit).
      unfold undated_result. cbn [bind]. f_equal. apply undated_timeline.
    + rewrite (forecast_timeline_overflow clock p Hfit),
        (forecast_timeline_overflow clock' p Hfit).
      reflexivity.
  - intros clock clock' p Hfit.
    exists (sorted (unsorted_timeline clock p) days_key),
      (sorted (unsorted_timeline clock' p) days_key).
    split; [apply forecast_timeline_closed; exact Hfit|].
    split; [rewrite forecast_timeline_copies;
            apply forecast_timeline_closed; exact Hfit|].
    apply undated_timeline.
Qed.

Lemma copies_agree_witness :
  ratio_fits example_record = true
  /\ exists fs gs,
       Utils.CrimeForecaster.forecast_crime_timeline (fun _ => 0)
         example_record = Ok fs
       /\ Backend.CrimeForecaster.forecast_crime_timeline (fun _ => 1)
            example_record = Ok gs
       /\ undated_items fs = undated_items gs.
Proof.
  split; [reflexivity|].
  apply (proj2 (proj2 (proj2 (proj2 copies_agree)))). reflexivity.
Defined.

(** C5, as stated, fails: for the empty record and the window 146 of
    "Кража" the product is 122.859; the code returns 122 days, [round]
    gives 123. *)
Lemma forecast_days_not_rounded :
  exists fs f,
    Utils.CrimeForecaster.forecast_crime_timeline (fun _ => 0) empty_record
    = Ok fs
    /\ dict_get fs "Кража" = Some f
    /\ dict_get Constants.CRIME_TIME_WINDOWS "Кража" = Some 146
    /\ days f = 122
    /\ Spec.days_rounded empty_record "Кража" 146 = 123
    /\ days f <> Spec.days_rounded empty_record "Кража" 146.
Proof.
  eexists. eexists.
  split; [vm_compute; reflexivity|].
  split; [vm_compute; reflexivity|].
  split; [reflexivity|].
  split; [reflexivity|].
  split; [vm_compute; reflexivity|].
  vm_compute. discriminate.
Qed.

(** C5, amended: for every record and every crime type with base window
    [B], [days] is the integer part (not the rounding) of
    [B * age_modifier * pattern_modifier * social_modifier], clamped to
    [30, 365]: the binary64 product of the code and the exact product of
    section 4.2 have the same integer part.  The entry is there wherever
    the timeline is returned (the quotient [criminal_count / total_cases]
    within the float range).  The computation in the [try] block
    itself fails for no record and no window of the table, so the
    fall-back to [clamp(B, 30, 365)] is never taken. *)
Theorem forecast_days_truncated (p : person_data) :
  (ratio_fits p = true ->
   forall clock,
     exists fs,
       Utils.CrimeForecaster.forecast_crime_timeline clock p = Ok fs
       /\ Backend.CrimeForecaster.forecast_crime_timeline clock p = Ok fs
       /\ Forall
            (fun kv : string * forecast =>
               exists B,
                 In (fst kv, B) Constants.CRIME_TIME_WINDOWS
                 /\ days (snd kv) = Spec.days_truncated p (fst kv) B
                 /\ 30 <= days (snd kv) <= 365)
            fs)
  /\ Forall
       (fun cw : string * Z =>
          forecast_days_body (snd cw)
            (Utils.CrimeForecaster._get_age_modifier p)
            (Utils.CrimeForecaster._get_pattern_modifier p (fst cw))
            (Utils.CrimeForecaster._get_social_modifier p)
          = Ok (Spec.days_truncated p (fst cw) (snd cw)))
       Constants.CRIME_TIME_WINDOWS.
Proof.
  split.
  - intros Hfit clock. exists (sorted (unsorted_timeline clock p) days_key).
    split; [apply forecast_timeline_closed; exact Hfit|].
    split; [rewrite forecast_timeline_copies;
            apply forecast_timeline_closed; exact Hfit|].
    apply timeline_Forall. intros now k b Hb. exists b.
    destruct (forecast_entry_facts now p k b Hfit) as (Hd & Hr & _).
    cbn [fst snd]. auto.
  - apply Forall_forall. intros [c b] Hin. cbn [fst snd].
    apply forecast_days_body_closed. exact Hin.
Qed.

Lemma forecast_days_truncated_witness :
  ratio_fits example_record = true
  /\ exists fs,
       Utils.CrimeForecaster.forecast_crime_timeline (fun _ => 0)
         example_record = Ok fs
       /\ Backend.CrimeForecaster.forecast_crime_timeline (fun _ => 0)
            example_record = Ok fs
       /\ Forall
            (fun kv : string * forecast =>
               exists B,
                 In (fst kv, B) Constants.CRIME_TIME_WINDOWS
                 /\ days (snd kv)
                    = Spec.days_truncated example_record (fst kv) B
                 /\ 30 <= days (snd kv) <= 365)
            fs.
Proof.
  split; [reflexivity|].
  apply (proj1 (forecast_days_truncated example_record)). reflexivity.
Defined.

(** C6, as stated, fails: for the empty record, "Кража" has 122 days and
    the interval (85, 170), while [round(122 * 1.4)] is 171. *)
Lemma confidence_interval_not_rounded :
  exists fs f,
    Utils.CrimeForecaster.forecast_crime_timeline (fun _ => 0) empty_record
    = Ok fs
    /\ dict_get fs "Кража" = Some f
    /\ days f = 122
    /\ (ci_lower f, ci_upper f) = (85, 170)
    /\ Spec.ci_rounded (days f) = (85, 171)
    /\ (ci_lower f, ci_upper f) <> Spec.ci_rounded (days f).
Proof.
  eexists. eexists.
  split; [vm_compute; reflexivity|].
  split; [vm_compute; reflexivity|].
  split; [reflexivity|].
  split; [reflexivity|].
  split; [vm_compute; reflexivity|].
  vm_compute. discriminate.
Qed.

(** C6, amended: in every entry of a returned timeline (it is returned
    wherever the quotient [criminal_count / total_cases] is within the
    float range), [ci_lower] and [ci_upper] are the integer parts
    (not the roundings) of [days * 0.7] and [days * 1.4]: they are never
    above the exact integer part and at most one below it, and they equal
    it whenever the exact product is not an integer ([days] not a multiple
    of 10, respectively of 5). *)
Theorem confidence_interval_truncated (clock : nat -> Z) (p : person_data) :
  ratio_fits p = true ->
  exists fs,
    Utils.CrimeForecaster.forecast_crime_timeline clock p = Ok fs
    /\ Forall
         (fun kv : string * forecast =>
            let f := snd kv in
            let exact := Spec.ci_truncated (days f) in
            fst exact - 1 <= ci_lower f <= fst exact
            /\ snd exact - 1 <= ci_upper f <= snd exact
            /\ (days f mod 10 = 0 \/ ci_lower f = fst exact)
            /\ (days f mod 5 = 0 \/ ci_upper f = snd exact))
         fs.
Proof.
  intros Hfit. exists (sorted (unsorted_timeline clock p) days_key).
  split; [apply forecast_timeline_closed; exact Hfit|].
  apply timeline_Forall. intros now k b Hb.
  destruct (forecast_entry_facts now p k b Hfit)
    as (_ & _ & Hlo & Hhi & Hl & Hu & _).
  cbn [fst snd]. cbn zeta. auto.
Qed.

Lemma confidence_interval_truncated_witness :
  ratio_fits example_record = true
  /\ exists fs,
       Utils.CrimeForecaster.forecast_crime_timeline (fun _ => 0)
         example_record = Ok fs
       /\ Forall
            (fun kv : string * forecast =>
               let f := snd kv in
               let exact := Spec.ci_truncated (days f) in
               fst exact - 1 <= ci_lower f <= fst exact
               /\ snd exact - 1 <= ci_upper f <= snd exact
               /\ (days f mod 10 = 0 \/ ci_lower f = fst exact)
               /\ (days f mod 5 = 0 \/ ci_upper f = snd exact))
            fs.
Proof.
  split; [reflexivity|].
  apply (confidence_interval_truncated (fun _ => 0) example_record).
  reflexivity.
Defined.

(** C7: for every record on which [calculate_risk_score] returns (the
    quotient [criminal_count / total_cases] within the float range)
    and every crime type of the table,
    [calculate_crime_probability] returns
    [clamp(base_rate * (risk_score / 10) * time_modifier * pattern_modifier,
    5, 95)] with [risk_score] the record's own score and the two modifiers
    of section 4.1; every forecast entry carries the probability computed
    at its own [days], between 5 and 95. *)
Theorem crime_probability_formula (p : person_data) :
  ratio_fits p = true ->
  (exists risk_score components,
      Utils.RiskCalculator.calculate_risk_score p
      = Ok (risk_score, components)
      /\ Forall
           (fun cw : string * Z =>
              exists base_rate,
                dict_get Constants.PREVENTION_RATES (fst cw) = Some base_rate
                /\ forall days_ahead,
                    exists probability,
                      Utils.RiskCalculator.calculate_crime_probability p
                        (fst cw) days_ahead = Ok probability
                      /\ (probability
                          == Spec.clamp
                               (base_rate * (risk_score / 10)
                                * Spec.time_modifier days_ahead (snd cw)
                                * Spec.probability_pattern_modifier p (fst cw))
                               5 95)%Q
                      /\ (5 <= probability <= 95)%Q)
           Constants.CRIME_TIME_WINDOWS)
  /\ (forall clock,
         exists fs,
           Utils.CrimeForecaster.forecast_crime_timeline clock p = Ok fs
           /\ Forall
                (fun kv : string * forecast =>
                   Utils.RiskCalculator.calculate_crime_probability p
                     (fst kv) (days (snd kv)) = Ok (probability (snd kv))
                   /\ (5 <= probability (snd kv) <= 95)%Q)
                fs).
Proof.
  intros Hfit. split.
  - destruct (history_score_ok p Hfit) as (h & Hh & _).
    do 2 eexists. split; [apply (risk_score_closed p h Hh)|].
    unfold Constants.CRIME_TIME_WINDOWS.
    repeat (constructor;
      [ eexists; split; [reflexivity|]; intros d; eexists; cbn [fst snd];
        split; [ eapply crime_probability_closed;
                 [reflexivity | reflexivity | apply (risk_score_closed p h Hh)]
               |];
        split; [apply py_clamp_spec | apply py_clamp_bounds; lra] |]).
    constructor.
  - intros clock. exists (sorted (unsorted_timeline clock p) days_key).
    split; [apply forecast_timeline_closed; exact Hfit|].
    apply timeline_Forall. intros now k b Hb.
    destruct (forecast_entry_facts now p k b Hfit)
      as (_ & _ & _ & _ & _ & _ & _ & Hp & Hr).
    cbn [fst snd]. auto.
Qed.

Lemma crime_probability_formula_witness :
  ratio_fits example_record = true
  /\ exists risk_score components,
       Utils.RiskCalculator.calculate_risk_score example_record
       = Ok (risk_score, components)
       /\ Forall
            (fun cw : string * Z =>
               exists base_rate,
                 dict_get Constants.PREVENTION_RATES (fst cw) = Some base_rate
                 /\ forall days_ahead,
                     exists probability,
                       Utils.RiskCalculator.calculate_crime_probability
                         example_record (fst cw) days_ahead = Ok probability
                       /\ (probability
                           == Spec.clamp
                                (base_rate * (risk_score / 10)
                                 * Spec.time_modifier days_ahead (snd cw)
                                 * Spec.probability_pattern_modifier
                                     example_record (fst cw))
                                5 95)%Q
                       /\ (5 <= probability <= 95)%Q)
            Constants.CRIME_TIME_WINDOWS.
Proof.
  split; [reflexivity|].
  apply (proj1 (crime_probability_formula example_record eq_refl)).
Defined.

(** C8: for every record on which it returns (the quotient
    [criminal_count / total_cases] within the float range),
    [forecast_crime_timeline] returns a map whose keys are exactly the
    eight keys of [CRIME_TIME_WINDOWS], each once, in ascending order of
    [days]. *)
Theorem forecast_timeline_keys_sorted (clock : nat -> Z) (p : person_data) :
  ratio_fits p = true ->
  exists fs,
    Utils.CrimeForecaster.forecast_crime_timeline clock p = Ok fs
    /\ Backend.CrimeForecaster.forecast_crime_timeline clock p = Ok fs
    /\ Permutation (dict_keys fs) (dict_keys Constants.CRIME_TIME_WINDOWS)
    /\ NoDup (dict_keys fs)
    /\ length fs = 8%nat
    /\ StronglySorted
         (fun a b : string * forecast => days (snd a) <= days (snd b)) fs.
Proof.
  intros Hfit. exists (sorted (unsorted_timeline clock p) days_key).
  split; [apply forecast_timeline_closed; exact Hfit|].
  split; [rewrite forecast_timeline_copies;
          apply forecast_timeline_closed; exact Hfit|].
  pose proof (sorted_perm days_key (unsorted_timeline clock p)) as Hperm.
  split; [apply (Permutation_map fst Hperm)|].
  split; [apply sorted_timeline_nodup|].
  split; [rewrite (Permutation_length Hperm); reflexivity|].
  apply (sorted_ascending days_key).
Qed.

Lemma forecast_timeline_keys_sorted_witness :
  ratio_fits example_record = true
  /\ exists fs,
       Utils.CrimeForecaster.forecast_crime_timeline (fun _ => 0)
         example_record = Ok fs
       /\ Backend.CrimeForecaster.forecast_crime_timeline (fun _ => 0)
            example_record = Ok fs
       /\ Permutation (dict_keys fs) (dict_keys Constants.CRIME_TIME_WINDOWS)
       /\ NoDup (dict_keys fs)
       /\ length fs = 8%nat
       /\ StronglySorted
            (fun a b : string * forecast => days (snd a) <= days (snd b)) fs.
Proof.
  split; [reflexivity|].
  apply (forecast_timeline_keys_sorted (fun _ => 0) example_record).
  reflexivity.
Defined.

(** C9: in each of the eight entries of a returned timeline (it is
    returned wherever the quotient [criminal_count / total_cases] is
    within the float range), [days] lies strictly inside the
    confidence interval, hence also within it. *)
Theorem forecast_days_inside_interval (clock : nat -> Z) (p : person_data) :
  ratio_fits p = true ->
  exists fs,
    Utils.CrimeForecaster.forecast_crime_timeline clock p = Ok fs
    /\ length fs = 8%nat
    /\ Forall
         (fun kv : string * forecast =>
            ci_lower (snd kv) <= days (snd kv) <= ci_upper (snd kv)
            /\ ci_lower (snd kv) < days (snd kv) < ci_upper (snd kv))
         fs.
Proof.
  intros Hfit. exists (sorted (unsorted_timeline clock p) days_key).
  split; [apply forecast_timeline_closed; exact Hfit|].
  split.
  - rewrite (Permutation_length
               (sorted_perm days_key (unsorted_timeline clock p))).
    reflexivity.
  - apply timeline_Forall. intros now k b Hb.
    destruct (forecast_entry_facts now p k b Hfit)
      as (_ & _ & _ & _ & _ & _ & Hin & _).
    cbn [fst snd]. lia.
Qed.

Lemma forecast_days_inside_interval_witness :
  ratio_fits example_record = true
  /\ exists fs,
       Utils.CrimeForecaster.forecast_crime_timeline (fun _ => 0)
         example_record = Ok fs
       /\ length fs = 8%nat
       /\ Forall
            (fun kv : string * forecast =>
               ci_lower (snd kv) <= days (snd kv) <= ci_upper (snd kv)
               /\ ci_lower (snd kv) < days (snd kv) < ci_upper (snd kv))
            fs.
Proof.
  split; [reflexivity|].
  apply (forecast_days_inside_interval (fun _ => 0) example_record).
  reflexivity.
Defined.

(** * Further properties of the code *)

(** ** Risk levels *)

Lemma Qle_bool_compat_l (x x' y : Q) :
  (x == x')%Q -> Qle_bool x y = Qle_bool x' y.
Proof. intros H. rewrite H. reflexivity. Qed.

Lemma thresholds_as_integers (score : Q) :
  Qle_bool constants.RISK_THRESHOLD_CRITICAL score = Qle_bool 7 score
  /\ Qle_bool constants.RISK_THRESHOLD_HIGH score = Qle_bool 5 score
  /\ Qle_bool constants.RISK_THRESHOLD_MEDIUM score = Qle_bool 3 score.
Proof.
  repeat split; apply Qle_bool_compat_l; reflexivity.
Qed.

(** X1: the four places that map a score to a level agree for every
    score: [get_risk_category_by_score] and [data_loader.get_risk_category]
    return the level of [get_risk_level], and the entry of
    [RISK_CATEGORIES] under [get_risk_level_key] carries that level as its
    label and the recommendation of [get_risk_level] as its description. *)
Theorem risk_level_tables_agree (score : Q) :
  constants.get_risk_category_by_score score
  = Ok (fst (Utils.RiskCalculator.get_risk_level score))
  /\ data_loader.get_risk_category score
     = fst (Utils.RiskCalculator.get_risk_level score)
  /\ exists c,
       dict_get constants.RISK_CATEGORIES
         (constants.get_risk_level_key score) = Some c
       /\ RiskCategory.label c
          = fst (Utils.RiskCalculator.get_risk_level score)
       /\ RiskCategory.description c
          = snd (Utils.RiskCalculator.get_risk_level score).
Proof.
  destruct (thresholds_as_integers score) as (H7 & H5 & H3).
  unfold constants.get_risk_category_by_score, constants.get_risk_level_key,
    data_loader.get_risk_category, Utils.RiskCalculator.get_risk_level.
  rewrite H7, H5, H3.
  destruct (Qle_bool 7 score); [|destruct (Qle_bool 5 score);
                                  [|destruct (Qle_bool 3 score)]];
    (split; [reflexivity|]; split; [reflexivity|];
     eexists; split; [reflexivity|]; split; reflexivity).
Qed.

(** X2: a score between 0 and 10 lies in the [range] of the category that
    [get_risk_level_key] names, and strictly below its upper end unless
    the category is the critical one. *)
Theorem risk_category_range (score : Q) :
  (0 <= score <= 10)%Q ->
  exists c,
    dict_get constants.RISK_CATEGORIES (constants.get_risk_level_key score)
    = Some c
    /\ (fst (RiskCategory.range c) <= score <= snd (RiskCategory.range c))%Q
    /\ (score < 7 -> score < snd (RiskCategory.range c))%Q.
Proof.
  intros [H0 H10].
  destruct (thresholds_as_integers score) as (H7 & H5 & H3).
  unfold constants.get_risk_level_key. rewrite H7, H5, H3.
  destruct (Qle_bool 7 score) eqn:E7;
    [|destruct (Qle_bool 5 score) eqn:E5;
      [|destruct (Qle_bool 3 score) eqn:E3]];
    (eexists; split; [reflexivity|]; cbn [RiskCategory.range fst snd]);
    repeat match goal with
      | E : Qle_bool _ _ = true |- _ => apply Qle_bool_iff in E
      | E : Qle_bool ?a ?b = false |- _ =>
          assert (b < a)%Q
            by (apply Qnot_le_lt; intros C; apply Qle_bool_iff in C;
                congruence);
          clear E
      end;
    repeat split; try lra; intros; lra.
Qed.

Lemma risk_category_range_witness :
  exists c,
    dict_get constants.RISK_CATEGORIES (constants.get_risk_level_key 5.76)
    = Some c
    /\ (fst (RiskCategory.range c) <= 5.76 <= snd (RiskCategory.range c))%Q
    /\ (5.76 < snd (RiskCategory.range c))%Q.
Proof.
  destruct (risk_category_range 5.76) as (c & Hc & Hr & Hlt).
  - split; vm_compute; discriminate.
  - exists c. split; [exact Hc|]. split; [exact Hr|].
    apply Hlt. reflexivity.
Defined.

(** ** Sub-scores *)

(** X3: with [0 <= criminal_count <= total_cases] and
    [total_cases > 0], as the request schema enforces, [min(10, ...)] of
    the history score never cuts: the score is the step value of
    [total_cases] plus twice the criminal share, between 2 and 10. *)
Theorem history_score_unclamped (p : person_data) :
  0 < get (total_cases p) 0 ->
  0 <= get (criminal_count p) 0 <= get (total_cases p) 0 ->
  exists h,
    Utils.RiskCalculator._calculate_history_score p = Ok h
    /\ (h == (if (get (total_cases p) 0 <=? 2)%Z then 2
              else if (get (total_cases p) 0 <=? 5)%Z then 4
              else if (get (total_cases p) 0 <=? 10)%Z then 6
              else 8)
             + 2 * (inject_Z (get (criminal_count p) 0%Z)
                    / inject_Z (get (total_cases p) 0%Z)))%Q
    /\ (2 <= h <= 10)%Q.
Proof.
  intros Ht [Hc0 Hc].
  unfold Utils.RiskCalculator._calculate_history_score.
  set (t := get (total_cases p) 0) in *.
  set (c := get (criminal_count p) 0) in *.
  assert (E0 : (t =? 0) = false) by (apply Z.eqb_neq; lia).
  rewrite E0.
  set (base := if t <=? 2 then 2%Q
               else if t <=? 5 then 4%Q
               else if t <=? 10 then 6%Q else 8%Q).
  assert (Hbase : (2 <= base <= 8)%Q).
  { subst base. repeat match goal with
      | |- context [if ?b then _ else _] => destruct b end; lra. }
  assert (Hratio : (0 <= inject_Z c / inject_Z t <= 1)%Q).
  { assert (Ht' : (0 < inject_Z t)%Q)
      by (change 0%Q with (inject_Z 0); rewrite <- Zlt_Qlt; exact Ht).
    split.
    - apply Qle_shift_div_l; [exact Ht'|]. rewrite Qmult_0_l.
      change 0%Q with (inject_Z 0). rewrite <- Zle_Qle. exact Hc0.
    - apply Qle_shift_div_r; [exact Ht'|]. rewrite Qmult_1_l.
      rewrite <- Zle_Qle. exact Hc. }
  destruct (c >? 0) eqn:Ec.
  - rewrite truediv_fits.
    2: lia.
    2: { rewrite Qabs_pos by apply Hratio.
         eapply Qle_lt_trans; [apply Hratio | reflexivity]. }
    cbn [bind]. eexists. split; [reflexivity|].
    assert (Hmin : (Py.min 10 (base + inject_Z c / inject_Z t * 2)
                    == base + inject_Z c / inject_Z t * 2)%Q)
      by (apply py_min_id; lra).
    split; [rewrite Hmin; ring | rewrite Hmin; lra].
  - cbn [bind]. eexists. split; [reflexivity|].
    assert (Hc' : c = 0) by (rewrite Z.gtb_ltb in Ec; apply Z.ltb_ge in Ec; lia).
    assert (Hmin : (Py.min 10 base == base)%Q) by (apply py_min_id; lra).
    rewrite Hc'.
    split; [rewrite Hmin|rewrite Hmin; lra].
    setoid_replace (inject_Z 0 / inject_Z t)%Q with 0%Q; [ring|].
    unfold Qdiv. change (inject_Z 0) with 0%Q. ring.
Qed.
Lemma history_score_unclamped_witness :
  exists h,
    Utils.RiskCalculator._calculate_history_score example_record = Ok h
    /\ (h == 4 + 2 * (inject_Z 2 / inject_Z 5))%Q
    /\ (2 <= h <= 10)%Q.
Proof.
  apply (history_score_unclamped example_record); cbn; lia.
Defined.

(** X4: for flags that are 0 or 1 the social score is
    [7 - 3*has_property - 3*has_job - has_family + 2*substance_abuse]; the
    clamp to [0, 10] is never active. *)
Theorem social_score_formula (p : person_data) :
  Spec.is_flag (has_property p) = true ->
  Spec.is_flag (has_job p) = true ->
  Spec.is_flag (has_family p) = true ->
  Spec.is_flag (substance_abuse p) = true ->
  Utils.RiskCalculator._calculate_social_score p
  = 7 - 3 * get (has_property p) 0 - 3 * get (has_job p) 0
    - get (has_family p) 0 + 2 * get (substance_abuse p) 0.
Proof.
  unfold Spec.is_flag, Utils.RiskCalculator._calculate_social_score.
  intros H1 H2 H3 H4.
  apply orb_prop in H1, H2, H3, H4.
  repeat match goal with
    | H : _ \/ _ |- _ => destruct H as [H|H]; apply Z.eqb_eq in H; rewrite H
    end; reflexivity.
Qed.

Lemma social_score_formula_witness :
  Utils.RiskCalculator._calculate_social_score lowest_record
  = 7 - 3 * 1 - 3 * 1 - 1 + 2 * 0.
Proof.
  apply (social_score_formula lowest_record); reflexivity.
Defined.

(** X5: at the same recidivism rate, a longer time since the last
    violation never gives a higher time score. *)
Theorem time_score_antitone (p q : person_data) :
  (get (recidivism_rate p) 0 == get (recidivism_rate q) 0)%Q ->
  get (days_since_last p) 365 <= get (days_since_last q) 365 ->
  Utils.RiskCalculator._calculate_time_score q
  <= Utils.RiskCalculator._calculate_time_score p.
Proof.
  intros Hr Hd. unfold Utils.RiskCalculator._calculate_time_score.
  rewrite (Qltb_compat 2 _ _ Hr).
  destruct (Qltb 2 (get (recidivism_rate q) 0%Q));
    repeat match goal with
      | |- context [?a <? ?b] => destruct (Z.ltb_spec a b)
      end; lia.
Qed.

Lemma time_score_antitone_witness :
  Utils.RiskCalculator._calculate_time_score lowest_record
  <= Utils.RiskCalculator._calculate_time_score empty_record.
Proof.
  apply (time_score_antitone empty_record lowest_record).
  - reflexivity.
  - cbn. lia.
Defined.

(** ** The score as a sum *)

(** With a non-negative [total_cases] and a quotient within the float
    range, the clamp of [calculate_risk_score] returns the sum of the
    components. *)
Lemma risk_score_unclamped (p : person_data) :
  0 <= get (total_cases p) 0 ->
  ratio_fits p = true ->
  exists h r,
    Utils.RiskCalculator._calculate_history_score p = Ok h
    /\ Utils.RiskCalculator.calculate_risk_score p
       = Ok (r, components_of p h)
    /\ (r == get (dict_get Utils.RiskCalculator.pattern_risks
                    (get (pattern_type p) "unknown")) 0.5 * 10 * 0.25
             + h * 0.20
             + inject_Z (Utils.RiskCalculator._calculate_time_score p) * 0.15
             + inject_Z (Utils.RiskCalculator._calculate_age_score p) * 0.10
             + inject_Z (Utils.RiskCalculator._calculate_social_score p)
               * 0.15
             + inject_Z (Utils.RiskCalculator._calculate_escalation_score p)
               * 0.15)%Q
    /\ (1.55 <= r <= 9.45)%Q.
Proof.
  intros Ht Hfit.
  destruct (history_score_ok p Hfit) as (h & Hh & Hle & Hge).
  specialize (Hge Ht).
  destruct (components_bounds p h (conj Hge Hle))
    as (cp & ch & ct & ca & cs & ce & Hc & Bp & Bh & Bt & Ba & Bs & Be & Hsum).
  exists h. eexists. split; [exact Hh|].
  split; [apply (risk_score_closed p h Hh)|].
  unfold components_of in Hc. injection Hc as <- <- <- <- <- <-.
  assert (Hr : (Py.max 0 (Py.min 10 (Py.sum (dict_values (components_of p h))))
                == Py.sum (dict_values (components_of p h)))%Q).
  { rewrite py_max_id.
    - rewrite py_min_id; [reflexivity | rewrite Hsum; lra].
    - rewrite py_min_id; rewrite Hsum; lra. }
  split; [rewrite Hr; exact Hsum | rewrite Hr, Hsum; lra].
Qed.

Lemma social_score_job (p : person_data) :
  get (has_job p) 0 = 0 ->
  Utils.RiskCalculator._calculate_social_score (with_has_job 1 p)
  = Utils.RiskCalculator._calculate_social_score p - 3.
Proof.
  intros H. unfold Utils.RiskCalculator._calculate_social_score.
  cbn [with_has_job has_job has_property has_family substance_abuse get].
  rewrite H. cbn [Z.eqb Pos.eqb].
  destruct (get (has_property p) 0 =? 1) eqn:E1;
    destruct (get (has_property p) 0 =? 0) eqn:E2;
    destruct (get (has_family p) 0 =? 1);
    destruct (get (substance_abuse p) 0 =? 1); lia.
Qed.

Lemma social_score_abuse (p : person_data) :
  get (substance_abuse p) 0 = 0 ->
  Utils.RiskCalculator._calculate_social_score (with_substance_abuse 1 p)
  = Utils.RiskCalculator._calculate_social_score p + 2.
Proof.
  intros H. unfold Utils.RiskCalculator._calculate_social_score.
  cbn [with_substance_abuse has_job has_property has_family substance_abuse
       get].
  rewrite H. cbn [Z.eqb Pos.eqb].
  destruct (get (has_property p) 0 =? 1) eqn:E1;
    destruct (get (has_property p) 0 =? 0) eqn:E2;
    destruct (get (has_job p) 0 =? 1) eqn:E3;
    destruct (get (has_job p) 0 =? 0) eqn:E4;
    destruct (get (has_family p) 0 =? 1); lia.
Qed.

(** X6: with a non-negative [total_cases] and a quotient
    [criminal_count / total_cases] within the float range, finding a job
    (has_job from 0 to 1) lowers the risk score by 0.45 and starting
    substance abuse (from 0 to 1) raises it by 0.30, within the tolerance
    1e-3 of float rounding, whatever the other fields are: the final clamp
    never hides the change. *)
Theorem social_changes_move_the_score (p : person_data) :
  0 <= get (total_cases p) 0 ->
  ratio_fits p = true ->
  exists r c,
    Utils.RiskCalculator.calculate_risk_score p = Ok (r, c)
    /\ (get (has_job p) 0 = 0 ->
        exists r' c',
          Utils.RiskCalculator.calculate_risk_score (with_has_job 1 p)
          = Ok (r', c')
          /\ (Qabs (r' - (r - 0.45)) < 0.001)%Q)
    /\ (get (substance_abuse p) 0 = 0 ->
        exists r' c',
          Utils.RiskCalculator.calculate_risk_score
            (with_substance_abuse 1 p)
          = Ok (r', c')
          /\ (Qabs (r' - (r + 0.30)) < 0.001)%Q).
Proof.
  intros Ht Hfit.
  destruct (risk_score_unclamped p Ht Hfit) as (h & r & Hh & Hr & Er & _).
  exists r. eexists. split; [exact Hr|]. split.
  - intros Hj.
    destruct (risk_score_unclamped (with_has_job 1 p) Ht Hfit)
      as (h' & r' & Hh' & Hr' & Er' & _).
    change (Utils.RiskCalculator._calculate_history_score (with_has_job 1 p))
      with (Utils.RiskCalculator._calculate_history_score p) in Hh'.
    assert (h' = h) by congruence. subst h'.
    exists r'. eexists. split; [exact Hr'|].
    apply Qeq_within_tolerance.
    rewrite Er', Er, (social_score_job p Hj).
    change (Utils.RiskCalculator._calculate_time_score (with_has_job 1 p))
      with (Utils.RiskCalculator._calculate_time_score p).
    change (Utils.RiskCalculator._calculate_age_score (with_has_job 1 p))
      with (Utils.RiskCalculator._calculate_age_score p).
    change (Utils.RiskCalculator._calculate_escalation_score
              (with_has_job 1 p))
      with (Utils.RiskCalculator._calculate_escalation_score p).
    change (pattern_type (with_has_job 1 p)) with (pattern_type p).
    unfold Z.sub. rewrite inject_Z_plus. change (inject_Z (- (3))) with (-3)%Q.
    ring.
  - intros Ha.
    destruct (risk_score_unclamped (with_substance_abuse 1 p) Ht Hfit)
      as (h' & r' & Hh' & Hr' & Er' & _).
    change (Utils.RiskCalculator._calculate_history_score
              (with_substance_abuse 1 p))
      with (Utils.RiskCalculator._calculate_history_score p) in Hh'.
    assert (h' = h) by congruence. subst h'.
    exists r'. eexists. split; [exact Hr'|].
    apply Qeq_within_tolerance.
    rewrite Er', Er, (social_score_abuse p Ha).
    change (Utils.RiskCalculator._calculate_time_score
              (with_substance_abuse 1 p))
      with (Utils.RiskCalculator._calculate_time_score p).
    change (Utils.RiskCalculator._calculate_age_score
              (with_substance_abuse 1 p))
      with (Utils.RiskCalculator._calculate_age_score p).
    change (Utils.RiskCalculator._calculate_escalation_score
              (with_substance_abuse 1 p))
      with (Utils.RiskCalculator._calculate_escalation_score p).
    change (pattern_type (with_substance_abuse 1 p)) with (pattern_type p).
    rewrite inject_Z_plus. change (inject_Z 2) with 2%Q.
    ring.
Qed.

Lemma social_changes_move_the_score_witness :
  exists r c,
    Utils.RiskCalculator.calculate_risk_score empty_record = Ok (r, c)
    /\ (exists r' c',
           Utils.RiskCalculator.calculate_risk_score
             (with_has_job 1 empty_record) = Ok (r', c')
           /\ (Qabs (r' - (r - 0.45)) < 0.001)%Q)
    /\ (exists r' c',
           Utils.RiskCalculator.calculate_risk_score
             (with_substance_abuse 1 empty_record) = Ok (r', c')
           /\ (Qabs (r' - (r + 0.30)) < 0.001)%Q).
Proof.
  destruct (social_changes_move_the_score empty_record
              ltac:(cbn; lia) eq_refl)
    as (r & c & H & Hj & Ha).
  exists r, c. split; [exact H|].
  split; [apply Hj; reflexivity | apply Ha; reflexivity].
Defined.

(** ** The crime probability *)

Lemma py_clamp_monotone (lo hi a b : Q) :
  (a <= b)%Q ->
  (Py.max lo (Py.min hi a) <= Py.max lo (Py.min hi b))%Q.
Proof.
  intros H. rewrite !py_clamp_spec. unfold Spec.clamp.
  apply Q.max_le_compat_l. apply Q.min_le_compat_l. exact H.
Qed.

Lemma base_probability_nonneg (c : string) :
  (0 <= get (dict_get utils_base_probabilities c) 50.0)%Q.
Proof.
  unfold utils_base_probabilities. cbn [dict_get].
  repeat match goal with
    | |- context [String.eqb c ?x] => destruct (String.eqb c x)
    end; cbn [get]; lra.
Qed.

(** X7: for two records with the same pattern type, the one with the
    higher risk score never gets the lower probability, for any crime type
    and horizon. *)
Theorem crime_probability_monotone (p q : person_data) (crime : string)
    (days_ahead : Z) (rp rq : Q) (cp cq : dict Q) :
  get (pattern_type p) "unknown" = get (pattern_type q) "unknown" ->
  Utils.RiskCalculator.calculate_risk_score p = Ok (rp, cp) ->
  Utils.RiskCalculator.calculate_risk_score q = Ok (rq, cq) ->
  (rp <= rq)%Q ->
  exists x y,
    Utils.RiskCalculator.calculate_crime_probability p crime days_ahead
    = Ok x
    /\ Utils.RiskCalculator.calculate_crime_probability q crime days_ahead
       = Ok y
    /\ (x <= y)%Q.
Proof.
  intros Hpat Hp Hq Hr.
  unfold Utils.RiskCalculator.calculate_crime_probability. cbv zeta.
  fold utils_time_windows utils_base_probabilities.
  rewrite Hp, Hq, Hpat. cbn [bind].
  do 2 eexists. split; [reflexivity|]. split; [reflexivity|].
  apply py_clamp_monotone.
  pose proof (base_probability_nonneg crime) as Hb.
  set (b := get (dict_get utils_base_probabilities crime) 50.0%Q) in *.
  match goal with
  | |- (b * _ * ?tm * ?pm <= _)%Q =>
      assert (Htm : (0 <= tm)%Q)
        by (repeat match goal with
              | |- context [if ?c then _ else _] => destruct c
              end; lra);
      assert (Hpm : (0 <= pm)%Q)
        by (repeat match goal with
              | |- context [if ?c then _ else _] => destruct c
              end; lra);
      generalize dependent tm; generalize dependent pm
  end.
  intros pm Hpm tm Htm.
  assert (H1 : (rp / 10 <= rq / 10)%Q)
    by (apply Qmult_le_compat_r; [exact Hr | discriminate]).
  generalize dependent (rp / 10)%Q. intros u. generalize (rq / 10)%Q.
  intros v H1.
  assert (H2 : (b * u <= b * v)%Q) by nra.
  assert (H3 : (b * u * tm <= b * v * tm)%Q) by nra.
  nra.
Qed.

Lemma crime_probability_monotone_witness :
  exists x y,
    Utils.RiskCalculator.calculate_crime_probability empty_record
      "Кража" 180 = Ok x
    /\ Utils.RiskCalculator.calculate_crime_probability
         (with_substance_abuse 1 empty_record) "Кража" 180 = Ok y
    /\ (x <= y)%Q.
Proof.
  eapply (crime_probability_monotone empty_record
            (with_substance_abuse 1 empty_record) "Кража" 180).
  - reflexivity.
  - vm_compute. reflexivity.
  - vm_compute. reflexivity.
  - vm_compute. discriminate.
Defined.

(** ** The head of a sorted list *)

Lemma sorted_fold_head {A} (key : A -> Z) (xs acc : list A) (h : A) :
  hd_error acc = Some h ->
  (forall x, In x xs -> key h <= key x) ->
  hd_error (fold_left (fun acc x => insert_by key x acc) xs acc) = Some h.
Proof.
  revert acc. induction xs as [|x xs IH]; intros acc Hh Hmin; cbn.
  - exact Hh.
  - apply IH.
    + destruct acc as [|y ys]; [discriminate|].
      cbn in Hh. injection Hh as ->. cbn.
      assert (E : (key h <=? key x) = true)
        by (apply Z.leb_le, Hmin; left; reflexivity).
      rewrite E. reflexivity.
    + intros y Hy. apply Hmin. right. exact Hy.
Qed.

Lemma sorted_head {A} (key : A -> Z) (x : A) (xs : list A) :
  (forall y, In y xs -> key x <= key y) ->
  hd_error (sorted (x :: xs) key) = Some x.
Proof.
  intros H. unfold sorted. cbn [fold_left insert_by].
  apply sorted_fold_head; [reflexivity | exact H].
Qed.

(** ** Fraud comes first *)

Lemma truncate_monotone (x y : Q) :
  (0 <= x)%Q -> (x <= y)%Q -> Spec.truncate x <= Spec.truncate y.
Proof.
  intros Hx Hxy. unfold Spec.truncate.
  assert (E1 : Qle_bool 0 x = true) by (apply Qle_bool_iff; exact Hx).
  assert (E2 : Qle_bool 0 y = true) by (apply Qle_bool_iff; lra).
  rewrite E1, E2. apply Qfloor_resp_le. exact Hxy.
Qed.

Lemma age_modifier_positive (p : person_data) :
  (0 < Spec.age_modifier p)%Q.
Proof.
  unfold Spec.age_modifier.
  repeat match goal with
    | |- context [if ?c then _ else _] => destruct c
    end; reflexivity.
Qed.

Lemma social_modifier_positive (p : person_data) :
  (0 < Spec.social_modifier p)%Q.
Proof.
  unfold Spec.social_modifier.
  destruct (get (has_property p) 0 =? 0);
    destruct (get (has_job p) 0 =? 0);
    destruct (get (substance_abuse p) 0 =? 1); reflexivity.
Qed.

Lemma pattern_base_positive (s : string) :
  (0.6 <= Spec.pattern_base s <= 1.5)%Q.
Proof.
  unfold Spec.pattern_base.
  repeat match goal with
    | |- context [if ?c then _ else _] => destruct c
    end; lra.
Qed.

Lemma fraud_product_least (p : person_data) (c : string) (b : Z) :
  In (c, b) Constants.CRIME_TIME_WINDOWS ->
  (0 <= Spec.days_product p "Мошенничество" 109
   <= Spec.days_product p c b)%Q.
Proof.
  intros Hin. unfold Spec.days_product.
  pose proof (age_modifier_positive p) as Ha.
  pose proof (social_modifier_positive p) as Hs.
  pose proof (pattern_base_positive (get (pattern_type p) "unknown")) as Hb.
  set (a := Spec.age_modifier p) in *.
  set (s := Spec.social_modifier p) in *.
  assert (Hf : Spec.pattern_modifier p "Мошенничество"
               = Spec.pattern_base (get (pattern_type p) "unknown")).
  { unfold Spec.pattern_modifier.
    replace (str_in "Мошенничество" [Spec.Theft; Spec.Robbery])
      with false by reflexivity.
    replace (str_in "Мошенничество" [Spec.Armed_robbery; Spec.Murder])
      with false by reflexivity.
    rewrite !andb_false_r. reflexivity. }
  rewrite Hf.
  assert (Hc : (109 * Spec.pattern_base (get (pattern_type p) "unknown")
                <= inject_Z b * Spec.pattern_modifier p c)%Q).
  { unfold Spec.pattern_modifier.
    set (base := Spec.pattern_base (get (pattern_type p) "unknown")) in *.
    unfold Constants.CRIME_TIME_WINDOWS in Hin. cbn [In] in Hin.
    destruct Hin as [H|[H|[H|[H|[H|[H|[H|[H|[]]]]]]]]];
      injection H as <- <-;
      repeat match goal with
        | |- context [str_in ?x ?l] =>
            let v := eval vm_compute in (str_in x l) in
            change (str_in x l) with v
        end;
      rewrite ?andb_false_r, ?andb_true_r;
      repeat match goal with
        | |- context [if ?c then _ else _] => destruct c
        end;
      match goal with
      | |- (_ <= inject_Z ?n * _)%Q =>
          let q := eval vm_compute in (inject_Z n) in
          change (inject_Z n) with q
      end; lra. }
  change (inject_Z 109) with 109%Q.
  set (pb := Spec.pattern_base (get (pattern_type p) "unknown")) in *.
  set (m := (inject_Z b * Spec.pattern_modifier p c)%Q) in *.
  split.
  - assert (0 <= 109 * a)%Q by nra. assert (0 <= 109 * a * pb)%Q by nra.
    nra.
  - setoid_replace (109 * a * pb * s)%Q with ((109 * pb) * (a * s))%Q by ring.
    setoid_replace (inject_Z b * a * Spec.pattern_modifier p c * s)%Q
      with (m * (a * s))%Q by (subst m; ring).
    assert (0 < a * s)%Q by nra. nra.
Qed.

Lemma fraud_days_least (p : person_data) (c : string) (b : Z) :
  In (c, b) Constants.CRIME_TIME_WINDOWS ->
  Spec.days_truncated p "Мошенничество" 109 <= Spec.days_truncated p c b.
Proof.
  intros Hin. destruct (fraud_product_least p c b Hin) as [H0 Hle].
  pose proof (truncate_monotone _ _ H0 Hle).
  unfold Spec.days_truncated, Spec.clampZ. lia.
Qed.

Lemma timeline_head (clock : nat -> Z) (p : person_data) :
  hd_error (sorted (unsorted_timeline clock p) days_key)
  = Some ("Мошенничество",
          forecast_entry (clock 0%nat) p "Мошенничество" 109).
Proof.
  change (unsorted_timeline clock p)
    with (("Мошенничество",
           forecast_entry (clock 0%nat) p "Мошенничество" 109)
          :: tl (unsorted_timeline clock p)).
  apply sorted_head. intros [k f] Hin.
  assert (Hin' : In (k, f) (unsorted_timeline clock p))
    by (destruct (unsorted_timeline clock p); [destruct Hin | right; exact Hin]).
  unfold unsorted_timeline in Hin'. apply in_map_iff in Hin'.
  destruct Hin' as ([i [c b]] & E & Hcb). injection E as <- <-.
  apply in_combine_r in Hcb.
  unfold days_key. cbn [snd]. unfold forecast_entry. cbn [days].
  apply fraud_days_least. exact Hcb.
Qed.

Lemma quick_assessment_copies (clock : nat -> Z) (p : person_data) :
  risk_service.quick_risk_assessment clock p
  = risk_calculator.quick_risk_assessment clock p.
Proof.
  unfold risk_service.quick_risk_assessment,
    risk_calculator.quick_risk_assessment.
  rewrite risk_score_copies.
  destruct (Utils.RiskCalculator.calculate_risk_score p) as [[r c]|e];
    cbn [bind]; [|reflexivity].
  rewrite forecast_timeline_copies. reflexivity.
Qed.

Lemma quick_assessment_closed (clock : nat -> Z) (p : person_data) :
  ratio_fits p = true ->
  exists r c,
    Utils.RiskCalculator.calculate_risk_score p = Ok (r, c)
    /\ risk_calculator.quick_risk_assessment clock p
       = Ok {| QuickAssessment.risk_score := r;
               QuickAssessment.risk_level :=
                 fst (Utils.RiskCalculator.get_risk_level r);
               QuickAssessment.recommendation :=
                 snd (Utils.RiskCalculator.get_risk_level r);
               QuickAssessment.components := c;
               QuickAssessment.most_likely_crime :=
                 Some (forecast_entry (clock 0%nat) p "Мошенничество" 109) |}.
Proof.
  intros Hfit. destruct (history_score_ok p Hfit) as (h & Hh & _).
  pose proof (risk_score_closed p h Hh) as Hr.
  do 2 eexists. split; [exact Hr|].
  unfold risk_calculator.quick_risk_assessment.
  rewrite Hr. cbn [bind].
  destruct (Utils.RiskCalculator.get_risk_level _) as [lvl rec].
  rewrite (forecast_timeline_closed _ p Hfit). cbn [bind fst snd].
  pose proof (timeline_head clock p) as Hhd.
  destruct (sorted (unsorted_timeline clock p) days_key) as [|[k f] rest];
    [discriminate|].
  cbn in Hhd. injection Hhd as -> ->. reflexivity.
Qed.

(** X8: wherever [quick_risk_assessment] returns (the quotient
    [criminal_count / total_cases] within the float range), in both
    copies, its [most_likely_crime] is not [None]: it is the first entry
    of the timeline, which for every such record is the entry of
    "Мошенничество" and has the smallest [days] of the eight. *)
Theorem most_likely_crime_is_fraud (clock : nat -> Z) (p : person_data) :
  ratio_fits p = true ->
  exists qa f fs,
    risk_calculator.quick_risk_assessment clock p = Ok qa
    /\ risk_service.quick_risk_assessment clock p = Ok qa
    /\ QuickAssessment.most_likely_crime qa = Some f
    /\ crime_type f = "Мошенничество"
    /\ Utils.CrimeForecaster.forecast_crime_timeline clock p = Ok fs
    /\ hd_error (dict_values fs) = Some f
    /\ Forall (fun kv : string * forecast => days f <= days (snd kv)) fs.
Proof.
  intros Hfit.
  destruct (quick_assessment_closed clock p Hfit) as (r & c & _ & Hq).
  eexists. exists (forecast_entry (clock 0%nat) p "Мошенничество" 109).
  exists (sorted (unsorted_timeline clock p) days_key).
  split; [exact Hq|].
  split; [rewrite quick_assessment_copies; exact Hq|].
  split; [reflexivity|]. split; [reflexivity|].
  split; [apply forecast_timeline_closed; exact Hfit|].
  split.
  - pose proof (timeline_head clock p) as Hhd.
    destruct (sorted (unsorted_timeline clock p) days_key) as [|[k f] rest];
      [discriminate|].
    cbn in Hhd. injection Hhd as -> ->. reflexivity.
  - apply timeline_Forall. intros now k b Hb. cbn [snd].
    unfold forecast_entry. cbn [days]. apply fraud_days_least. exact Hb.
Qed.

Lemma most_likely_crime_is_fraud_witness :
  ratio_fits example_record = true
  /\ exists qa f fs,
       risk_calculator.quick_risk_assessment (fun _ => 0) example_record
       = Ok qa
       /\ risk_service.quick_risk_assessment (fun _ => 0) example_record
          = Ok qa
       /\ QuickAssessment.most_likely_crime qa = Some f
       /\ crime_type f = "Мошенничество"
       /\ Utils.CrimeForecaster.forecast_crime_timeline (fun _ => 0)
            example_record = Ok fs
       /\ hd_error (dict_values fs) = Some f
       /\ Forall (fun kv : string * forecast => days f <= days (snd kv)) fs.
Proof.
  split; [reflexivity|].
  apply (most_likely_crime_is_fraud (fun _ => 0) example_record).
  reflexivity.
Defined.

(** ** Interval bounds of the entries *)

Lemma ci_step_all : forallb ci_step_ok forecast_days_range = true.
Proof. vm_compute. reflexivity. Qed.

Lemma ci_step (d : Z) :
  30 <= d <= 365 ->
  21 <= ci_lower_at d <= 255 /\ 42 <= ci_upper_at d <= 510
  /\ ci_lower_at d <= ci_lower_at (d + 1)
  /\ ci_upper_at d <= ci_upper_at (d + 1).
Proof.
  intros H. apply forecast_days_range_spec in H.
  pose proof ci_step_all as Hall. rewrite forallb_forall in Hall.
  specialize (Hall d H). unfold ci_step_ok in Hall.
  repeat (apply andb_prop in Hall; destruct Hall as [Hall ?]).
  repeat match goal with
    | E : (_ <=? _) = true |- _ => apply Z.leb_le in E
    end.
  lia.
Qed.

Lemma ci_monotone (d d' : Z) :
  30 <= d -> d <= d' -> d' <= 365 ->
  ci_lower_at d <= ci_lower_at d' /\ ci_upper_at d <= ci_upper_at d'.
Proof.
  intros Hd Hle Hd'.
  remember (Z.to_nat (d' - d)) as n eqn:En.
  revert d' Hle Hd' En. induction n as [|n IH]; intros d' Hle Hd' En.
  - assert (d' = d) by lia. subst d'. lia.
  - destruct (IH (d' - 1)) as [Hl Hu]; try lia.
    destruct (ci_step (d' - 1)) as (_ & _ & Hsl & Hsu); [lia|].
    replace (d' - 1 + 1) with d' in * by lia. lia.
Qed.

(** X11: in every entry of a returned timeline (it is returned wherever
    the quotient [criminal_count / total_cases] is within the float range)
    [21 <= ci_lower <= 255] and [42 <= ci_upper <= 510], and along the
    timeline, which is sorted by [days], neither bound ever decreases. *)
Theorem confidence_interval_range (clock : nat -> Z) (p : person_data) :
  ratio_fits p = true ->
  exists fs,
    Utils.CrimeForecaster.forecast_crime_timeline clock p = Ok fs
    /\ Forall
         (fun kv : string * forecast =>
            21 <= ci_lower (snd kv) <= 255
            /\ 42 <= ci_upper (snd kv) <= 510)
         fs
    /\ StronglySorted
         (fun a b : string * forecast =>
            ci_lower (snd a) <= ci_lower (snd b)
            /\ ci_upper (snd a) <= ci_upper (snd b))
         fs.
Proof.
  intros Hfit. exists (sorted (unsorted_timeline clock p) days_key).
  split; [apply forecast_timeline_closed; exact Hfit|].
  split.
  - apply timeline_Forall. intros now k b Hb. cbn [snd].
    unfold forecast_entry. cbn [ci_lower ci_upper].
    destruct (ci_step _ (days_truncated_range p k b)) as (Hl & Hu & _).
    exact (conj Hl Hu).
  - pose proof (sorted_ascending days_key (unsorted_timeline clock p)) as Hs.
    assert (Hall : Forall
              (fun kv : string * forecast =>
                 30 <= days (snd kv) <= 365
                 /\ ci_lower (snd kv) = ci_lower_at (days (snd kv))
                 /\ ci_upper (snd kv) = ci_upper_at (days (snd kv)))
              (sorted (unsorted_timeline clock p) days_key)).
    { apply timeline_Forall. intros now k b Hb. cbn [snd].
      split; [apply days_truncated_range|]. split; reflexivity. }
    induction Hs as [|a l Hs IH Ha]; [constructor|].
    inversion Hall as [|? ? Hfa Hfl]; subst.
    constructor; [apply IH; exact Hfl|].
    rewrite Forall_forall in *. intros x Hx.
    specialize (Ha x Hx). specialize (Hfl x Hx). unfold days_key in Ha.
    destruct Hfa as (Hra & -> & ->). destruct Hfl as (Hrx & -> & ->).
    apply ci_monotone; lia.
Qed.

Lemma confidence_interval_range_witness :
  ratio_fits example_record = true
  /\ exists fs,
       Utils.CrimeForecaster.forecast_crime_timeline (fun _ => 0)
         example_record = Ok fs
       /\ Forall
            (fun kv : string * forecast =>
               21 <= ci_lower (snd kv) <= 255
               /\ 42 <= ci_upper (snd kv) <= 510)
            fs
       /\ StronglySorted
            (fun a b : string * forecast =>
               ci_lower (snd a) <= ci_lower (snd b)
               /\ ci_upper (snd a) <= ci_upper (snd b))
            fs.
Proof.
  split; [reflexivity|].
  apply (confidence_interval_range (fun _ => 0) example_record).
  reflexivity.
Defined.

(** ** [RiskService] *)

(** X12: [validate_person_data] accepts a record exactly when
    [pattern_type], [total_cases] and [current_age] are present, the
    pattern is a key of [PATTERN_RISKS], [total_cases >= 0] and
    [0 < current_age < 120]; it reports at most three errors. *)
Theorem validate_person_data_accepts (p : person_data) :
  fst (risk_service.RiskService.validate_person_data p)
  = match pattern_type p, total_cases p, current_age p with
    | Some s, Some t, Some a =>
        str_in s (dict_keys Constants.PATTERN_RISKS)
        && (0 <=? t) && (0 <? a) && (a <? 120)
    | _, _, _ => false
    end
  /\ (List.length (snd (risk_service.RiskService.validate_person_data p))
      <= 3)%nat.
Proof.
  destruct p as [pt tc cc ac dsl rr age afv hp hj hf sa he atc].
  unfold risk_service.RiskService.validate_person_data.
  cbn [pattern_type total_cases current_age].
  destruct pt as [s|], tc as [t|], age as [a|];
    cbn -[str_in Constants.PATTERN_RISKS Z.ltb Z.leb String.append];
    repeat match goal with
      | |- context [?x <? ?y] => destruct (Z.ltb_spec x y)
      | |- context [?x <=? ?y] => destruct (Z.leb_spec x y)
      | |- context [str_in ?x ?l] => destruct (str_in x l)
      end;
    cbn -[String.append]; split; try reflexivity; try lia.
Qed.

Lemma accepted_facts (r : schemas.RiskCalculationRequest.t) :
  schemas.RiskCalculationRequest.accepted r = true ->
  0 <= schemas.RiskCalculationRequest.criminal_count r
       <= schemas.RiskCalculationRequest.total_cases r
  /\ 0 <= schemas.RiskCalculationRequest.admin_count r
          <= schemas.RiskCalculationRequest.total_cases r
  /\ 0 <= schemas.RiskCalculationRequest.days_since_last r
  /\ (0 <= schemas.RiskCalculationRequest.recidivism_rate r)%Q
  /\ 14 <= schemas.RiskCalculationRequest.current_age r <= 100
  /\ match schemas.RiskCalculationRequest.age_at_first_violation r with
     | Some v => 14 <= v <= schemas.RiskCalculationRequest.current_age r
     | None => True
     end
  /\ 0 <= schemas.RiskCalculationRequest.has_property r <= 1
  /\ 0 <= schemas.RiskCalculationRequest.has_job r <= 1
  /\ 0 <= schemas.RiskCalculationRequest.has_family r <= 1
  /\ 0 <= schemas.RiskCalculationRequest.substance_abuse r <= 1
  /\ 0 <= schemas.RiskCalculationRequest.has_escalation r <= 1
  /\ 0 <= schemas.RiskCalculationRequest.admin_to_criminal r.
Proof.
  unfold schemas.RiskCalculationRequest.accepted,
    schemas.RiskCalculationRequest.fields_in_bounds,
    schemas.RiskCalculationRequest.validate_criminal_count,
    schemas.RiskCalculationRequest.validate_admin_count,
    schemas.RiskCalculationRequest.validate_first_violation_age.
  intros H.
  repeat (apply andb_prop in H; destruct H as [H ?]).
  destruct (schemas.RiskCalculationRequest.criminal_count r
            >? schemas.RiskCalculationRequest.total_cases r) eqn:Ec;
    [discriminate|].
  destruct (schemas.RiskCalculationRequest.admin_count r
            >? schemas.RiskCalculationRequest.total_cases r) eqn:Ea;
    [discriminate|].
  rewrite Z.gtb_ltb in Ec, Ea. apply Z.ltb_ge in Ec, Ea.
  repeat match goal with
    | E : (_ <=? _) = true |- _ => apply Z.leb_le in E
    | E : Qle_bool _ _ = true |- _ => apply Qle_bool_iff in E
    end.
  destruct (schemas.RiskCalculationRequest.age_at_first_violation r) as [v|].
  - destruct (v >? schemas.RiskCalculationRequest.current_age r) eqn:Ev;
      [discriminate|].
    rewrite Z.gtb_ltb in Ev. apply Z.ltb_ge in Ev.
    match goal with
    | E : (_ && _) = true |- _ => apply andb_prop in E; destruct E as [E1 E2];
                                  apply Z.leb_le in E1, E2
    end.
    repeat split; try lia; try lra.
  - repeat split; try lia; try lra.
Qed.

Lemma pattern_value_known (pt : schemas.PatternType) :
  str_in (schemas.PatternType_value pt) (dict_keys Constants.PATTERN_RISKS)
  = true
  /\ str_in (schemas.PatternType_value pt) Spec.pattern_types = true.
Proof. destruct pt; split; reflexivity. Qed.

(** X13: the dict that [to_calculator_dict] builds from a request accepted
    by the schema always passes [validate_person_data] with an empty error
    list, and lies in the input domain of the calculators. *)
Theorem accepted_request_is_valid (r : schemas.RiskCalculationRequest.t) :
  schemas.RiskCalculationRequest.accepted r = true ->
  risk_service.RiskService.validate_person_data (schemas.to_calculator_dict r)
  = (true, [])
  /\ Spec.in_domain (schemas.to_calculator_dict r).
Proof.
  intros Hacc.
  destruct (accepted_facts r Hacc)
    as (Hc & Ha & Hd & Hr & Hage & Hfirst & Hp & Hj & Hf & Hs & He & Hatc).
  destruct (pattern_value_known (schemas.RiskCalculationRequest.pattern_type r))
    as [Hk1 Hk2].
  split.
  - unfold risk_service.RiskService.validate_person_data,
      schemas.to_calculator_dict.
    cbn -[str_in Constants.PATTERN_RISKS Z.ltb Z.leb String.append].
    rewrite Hk1.
    assert (E1 : (schemas.RiskCalculationRequest.total_cases r <? 0) = false)
      by (apply Z.ltb_ge; lia).
    assert (E2 : (0 <? schemas.RiskCalculationRequest.current_age r) = true)
      by (apply Z.ltb_lt; lia).
    assert (E3 : (schemas.RiskCalculationRequest.current_age r <? 120) = true)
      by (apply Z.ltb_lt; lia).
    rewrite E1, E2, E3. reflexivity.
  - unfold Spec.in_domain, Spec.in_domainb, Spec.is_flag,
      schemas.to_calculator_dict.
    cbn [pattern_type total_cases criminal_count admin_count days_since_last
         recidivism_rate current_age age_at_first_violation has_property
         has_job has_family substance_abuse has_escalation admin_to_criminal
         get].
    rewrite Hk2.
    repeat match goal with
      | |- _ && _ = true => apply andb_true_intro; split
      | |- _ || _ = true => apply orb_true_iff
      end;
      try (apply Z.leb_le; lia);
      try (apply Qle_bool_iff; lra);
      try reflexivity;
      try (match goal with
           | |- (?x =? 0) = true \/ _ =>
               destruct (Z.eq_dec x 0) as [->|];
               [left; reflexivity | right; apply Z.eqb_eq; lia]
           end).
    + destruct ((schemas.RiskCalculationRequest.admin_count r =? 0)
                && (schemas.RiskCalculationRequest.criminal_count r
                    <? schemas.RiskCalculationRequest.total_cases r));
        apply Z.leb_le; lia.
    + destruct (schemas.RiskCalculationRequest.age_at_first_violation r);
        apply Z.leb_le; lia.
Qed.

Lemma accepted_request_is_valid_witness :
  risk_service.RiskService.validate_person_data
    (schemas.to_calculator_dict example_request) = (true, [])
  /\ Spec.in_domain (schemas.to_calculator_dict example_request).
Proof.
  apply (accepted_request_is_valid example_request). reflexivity.
Defined.

(** X14: when an accepted request leaves [admin_count] at 0,
    [to_calculator_dict] fills it so that
    [admin_count + criminal_count == total_cases]. *)
Theorem omitted_admin_count_is_filled (r : schemas.RiskCalculationRequest.t) :
  schemas.RiskCalculationRequest.accepted r = true ->
  schemas.RiskCalculationRequest.admin_count r = 0 ->
  get (admin_count (schemas.to_calculator_dict r)) 0
  + get (criminal_count (schemas.to_calculator_dict r)) 0
  = get (total_cases (schemas.to_calculator_dict r)) 0.
Proof.
  intros Hacc H0.
  destruct (accepted_facts r Hacc) as (Hc & _).
  unfold schemas.to_calculator_dict.
  cbn [admin_count criminal_count total_cases get].
  rewrite H0. cbn [Z.eqb andb].
  destruct (Z.ltb_spec (schemas.RiskCalculationRequest.criminal_count r)
              (schemas.RiskCalculationRequest.total_cases r)); lia.
Qed.

Lemma omitted_admin_count_is_filled_witness :
  get (admin_count (schemas.to_calculator_dict minimal_request)) 0
  + get (criminal_count (schemas.to_calculator_dict minimal_request)) 0
  = get (total_cases (schemas.to_calculator_dict minimal_request)) 0.
Proof.
  apply (omitted_admin_count_is_filled minimal_request); reflexivity.
Defined.

Lemma timeline_length (clock : nat -> Z) (p : person_data) :
  List.length (sorted (unsorted_timeline clock p) days_key) = 8%nat.
Proof.
  rewrite (Permutation_length
             (sorted_perm days_key (unsorted_timeline clock p))).
  reflexivity.
Qed.

Lemma service_result_closed (clock : nat -> Z) (utcnow : Z)
    (isoformat : Z -> string) (p : person_data) :
  ratio_fits p = true ->
  exists r c,
    Utils.RiskCalculator.calculate_risk_score p = Ok (r, c)
    /\ risk_service.RiskService.calculate_risk_for_person_dict clock utcnow
         isoformat p
       = Ok {| RiskResult.person_data := p;
               RiskResult.risk_score := r;
               RiskResult.risk_components := c;
               RiskResult.risk_level :=
                 fst (Utils.RiskCalculator.get_risk_level r);
               RiskResult.recommendation :=
                 snd (Utils.RiskCalculator.get_risk_level r);
               RiskResult.forecasts :=
                 sorted (unsorted_timeline clock p) days_key;
               RiskResult.quick_assessment :=
                 {| QuickAssessment.risk_score := r;
                    QuickAssessment.risk_level :=
                      fst (Utils.RiskCalculator.get_risk_level r);
                    QuickAssessment.recommendation :=
                      snd (Utils.RiskCalculator.get_risk_level r);
                    QuickAssessment.components := c;
                    QuickAssessment.most_likely_crime :=
                      Some (forecast_entry (clock 8%nat) p
                              "Мошенничество" 109) |};
               RiskResult.calculated_at := isoformat utcnow |}.
Proof.
  intros Hfit.
  destruct (quick_assessment_closed (fun i => clock (8 + i)%nat) p Hfit)
    as (r & c & Hr & Hq).
  exists r, c. split; [exact Hr|].
  unfold risk_service.RiskService.calculate_risk_for_person_dict.
  rewrite risk_score_copies, Hr. cbn [bind].
  change (Backend.RiskCalculator.get_risk_level r)
    with (Utils.RiskCalculator.get_risk_level r).
  destruct (Utils.RiskCalculator.get_risk_level r) as [lvl rec].
  rewrite forecast_timeline_copies, (forecast_timeline_closed clock p Hfit).
  cbn [bind].
  rewrite quick_assessment_copies, Hq. cbn [bind fst snd].
  reflexivity.
Qed.

(** The first call of the service, [calculate_risk_score], is the one that
    raises when the quotient does not fit. *)
Lemma service_result_overflow (clock : nat -> Z) (utcnow : Z)
    (isoformat : Z -> string) (p : person_data) :
  ratio_fits p = false ->
  risk_service.RiskService.calculate_risk_for_person_dict clock utcnow
    isoformat p
  = Raise OverflowError.
Proof.
  intros Hfit.
  unfold risk_service.RiskService.calculate_risk_for_person_dict.
  rewrite risk_score_copies, (risk_score_overflow p Hfit). reflexivity.
Qed.

(** X15: for a dict whose values have the types of their fields and
    whose quotient [criminal_count / total_cases] is within the float
    range, [calculate_risk_for_person_dict] returns a result whose score
    and components are those of [calculate_risk_score], whose level and
    recommendation are those of [get_risk_level], which has eight
    forecasts, and whose embedded quick assessment repeats the same score,
    level, recommendation and components, with a [most_likely_crime] equal
    to the first forecast in every field but [date]. *)
Theorem service_result_is_consistent (clock : nat -> Z) (utcnow : Z)
    (isoformat : Z -> string) (p : person_data) :
  ratio_fits p = true ->
  exists res f g,
    risk_service.RiskService.calculate_risk_for_person_dict clock utcnow
      isoformat p = Ok res
    /\ Utils.RiskCalculator.calculate_risk_score p
       = Ok (RiskResult.risk_score res, RiskResult.risk_components res)
    /\ (RiskResult.risk_level res, RiskResult.recommendation res)
       = Utils.RiskCalculator.get_risk_level (RiskResult.risk_score res)
    /\ List.length (RiskResult.forecasts res) = 8%nat
    /\ QuickAssessment.risk_score (RiskResult.quick_assessment res)
       = RiskResult.risk_score res
    /\ QuickAssessment.risk_level (RiskResult.quick_assessment res)
       = RiskResult.risk_level res
    /\ QuickAssessment.recommendation (RiskResult.quick_assessment res)
       = RiskResult.recommendation res
    /\ QuickAssessment.components (RiskResult.quick_assessment res)
       = RiskResult.risk_components res
    /\ QuickAssessment.most_likely_crime (RiskResult.quick_assessment res)
       = Some f
    /\ hd_error (dict_values (RiskResult.forecasts res)) = Some g
    /\ undated f = undated g.
Proof.
  intros Hfit.
  destruct (service_result_closed clock utcnow isoformat p Hfit)
    as (r & c & Hr & Hres).
  eexists.
  exists (forecast_entry (clock 8%nat) p "Мошенничество" 109).
  exists (forecast_entry (clock 0%nat) p "Мошенничество" 109).
  split; [exact Hres|].
  cbn [RiskResult.risk_score RiskResult.risk_components
       RiskResult.risk_level RiskResult.recommendation RiskResult.forecasts
       RiskResult.quick_assessment QuickAssessment.risk_score
       QuickAssessment.risk_level QuickAssessment.recommendation
       QuickAssessment.components QuickAssessment.most_likely_crime].
  split; [exact Hr|].
  split; [destruct (Utils.RiskCalculator.get_risk_level r); reflexivity|].
  split; [apply timeline_length|].
  do 5 (split; [reflexivity|]).
  split; [|reflexivity].
  pose proof (timeline_head clock p) as Hhd.
  destruct (sorted (unsorted_timeline clock p) days_key) as [|[k f] rest];
    [discriminate|].
  cbn in Hhd. injection Hhd as -> ->. reflexivity.
Qed.

Lemma service_result_is_consistent_witness :
  ratio_fits example_record = true
  /\ exists res f g,
       risk_service.RiskService.calculate_risk_for_person_dict (fun _ => 0)
         0 (fun _ => "now") example_record = Ok res
       /\ Utils.RiskCalculator.calculate_risk_score example_record
          = Ok (RiskResult.risk_score res, RiskResult.risk_components res)
       /\ (RiskResult.risk_level res, RiskResult.recommendation res)
          = Utils.RiskCalculator.get_risk_level (RiskResult.risk_score res)
       /\ List.length (RiskResult.forecasts res) = 8%nat
       /\ QuickAssessment.risk_score (RiskResult.quick_assessment res)
          = RiskResult.risk_score res
       /\ QuickAssessment.risk_level (RiskResult.quick_assessment res)
          = RiskResult.risk_level res
       /\ QuickAssessment.recommendation (RiskResult.quick_assessment res)
          = RiskResult.recommendation res
       /\ QuickAssessment.components (RiskResult.quick_assessment res)
          = RiskResult.risk_components res
       /\ QuickAssessment.most_likely_crime
            (RiskResult.quick_assessment res)
          = Some f
       /\ hd_error (dict_values (RiskResult.forecasts res)) = Some g
       /\ undated f = undated g.
Proof.
  split; [reflexivity|].
  apply (service_result_is_consistent (fun _ => 0) 0 (fun _ => "now")
           example_record).
  reflexivity.
Defined.

Lemma batch_from_closed (clock : nat -> nat -> Z) (utcnow : nat -> Z)
    (isoformat : Z -> string) (str : exn -> string)
    (persons : list person_data) (n : nat)
    (acc : list risk_service.RiskService.batch_item) :
  exists items,
    risk_service.RiskService.calculate_risk_batch_from n clock utcnow
      isoformat str persons acc
    = (acc ++ items)%list
    /\ Forall2 (batch_item_of clock utcnow isoformat str)
         (combine (seq n (List.length persons)) persons) items.
Proof.
  revert n acc. induction persons as [|p persons IH]; intros n acc.
  - exists []. cbn. rewrite app_nil_r. split; [reflexivity | constructor].
  - cbn [risk_service.RiskService.calculate_risk_batch_from].
    destruct (ratio_fits p) eqn:Hfit.
    + destruct (service_result_closed (clock n) (utcnow n) isoformat p Hfit)
        as (r & c & _ & Hres).
      rewrite Hres.
      match goal with
      | |- context [(acc ++ [?item])%list] =>
          destruct (IH (S n) (acc ++ [item])%list)
            as (items & Hbatch & Hall);
          exists (item :: items)
      end.
      split; [rewrite Hbatch, <- app_assoc; reflexivity|].
      cbn [List.length seq combine]. constructor; [|exact Hall].
      unfold batch_item_of. cbn [fst snd]. rewrite Hfit.
      eexists. split; [exact Hres|]. split; reflexivity.
    + rewrite (service_result_overflow (clock n) (utcnow n) isoformat p Hfit).
      match goal with
      | |- context [(acc ++ [?item])%list] =>
          destruct (IH (S n) (acc ++ [item])%list)
            as (items & Hbatch & Hall);
          exists (item :: items)
      end.
      split; [rewrite Hbatch, <- app_assoc; reflexivity|].
      cbn [List.length seq combine]. constructor; [|exact Hall].
      unfold batch_item_of. cbn [fst snd]. rewrite Hfit. reflexivity.
Qed.

(** X16: for dicts whose values have the types of their fields,
    [calculate_risk_batch] returns one item per input record, in input
    order: the item is the full result of
    [calculate_risk_for_person_dict] where the quotient
    [criminal_count / total_cases] is within the float range, and otherwise
    the error dict of the [except] branch, with the text of the
    [OverflowError], a [risk_score] of 0.0 and the record itself.  A record
    that fails does not stop the records after it. *)
Theorem batch_item_per_record (clock : nat -> nat -> Z)
    (utcnow : nat -> Z) (isoformat : Z -> string) (str : exn -> string)
    (persons : list person_data) :
  let items :=
    risk_service.RiskService.calculate_risk_batch clock utcnow isoformat str
      persons in
  List.length items = List.length persons
  /\ Forall2 (batch_item_of clock utcnow isoformat str)
       (combine (seq 0 (List.length persons)) persons) items.
Proof.
  cbv zeta.
  destruct (batch_from_closed clock utcnow isoformat str persons 0%nat [])
    as (items & Hbatch & Hall).
  unfold risk_service.RiskService.calculate_risk_batch.
  rewrite Hbatch. cbn [app]. split; [|exact Hall].
  apply Forall2_length in Hall. rewrite <- Hall.
  rewrite length_combine, length_seq. lia.
Qed.

(** A record that fails is reported and the next one is calculated. *)
Example batch_goes_on_after_an_error :
  exists res,
    risk_service.RiskService.calculate_risk_batch (fun _ _ => 0)
      (fun _ => 0) (fun _ => "t") (fun _ => "e")
      [overflow_record; empty_record]
    = [ risk_service.RiskService.Failed overflow_record "e" 0.0%Q "t";
        risk_service.RiskService.Calculated res ]
    /\ RiskResult.person_data res = empty_record.
Proof. eexists. split; vm_compute; reflexivity. Qed.

(** X17: for every request accepted by the schema the service returns a
    score between 1.55 and 9.45 that is the sum of the returned
    components. *)
Theorem accepted_request_score (clock : nat -> Z) (utcnow : Z)
    (isoformat : Z -> string) (r : schemas.RiskCalculationRequest.t) :
  schemas.RiskCalculationRequest.accepted r = true ->
  exists res,
    risk_service.RiskService.calculate_risk_for_person_dict clock utcnow
      isoformat (schemas.to_calculator_dict r) = Ok res
    /\ (1.55 <= RiskResult.risk_score res <= 9.45)%Q
    /\ (RiskResult.risk_score res
        == Py.sum (dict_values (RiskResult.risk_components res)))%Q.
Proof.
  intros Hacc.
  destruct (accepted_facts r Hacc) as (Hc & _).
  assert (Ht : 0 <= get (total_cases (schemas.to_calculator_dict r)) 0)
    by (cbn; lia).
  assert (Hfit : ratio_fits (schemas.to_calculator_dict r) = true)
    by (apply ratio_fits_le; cbn; lia).
  destruct (risk_score_unclamped _ Ht Hfit) as (h & s & Hh & Hs & Es & Bs).
  destruct (service_result_closed clock utcnow isoformat
              (schemas.to_calculator_dict r) Hfit)
    as (s' & c' & Hs' & Hres).
  rewrite Hs in Hs'. injection Hs' as <- <-.
  eexists. split; [exact Hres|].
  cbn [RiskResult.risk_score RiskResult.risk_components].
  split; [exact Bs|].
  rewrite Es. unfold Py.sum, dict_values, components_of.
  cbn [map snd fold_left]. ring.
Qed.

Lemma accepted_request_score_witness :
  exists res,
    risk_service.RiskService.calculate_risk_for_person_dict (fun _ => 0) 0
      (fun _ => "") (schemas.to_calculator_dict example_request) = Ok res
    /\ (1.55 <= RiskResult.risk_score res <= 9.45)%Q
    /\ (RiskResult.risk_score res
        == Py.sum (dict_values (RiskResult.risk_components res)))%Q.
Proof.
  apply (accepted_request_score (fun _ => 0) 0 (fun _ => "") example_request).
  reflexivity.
Defined.
